(** * XCTest results interpreter: count normalisation, detail extraction,
    report rendering and the conversion pipeline of [xcresult_gui_v6.py].

    Strings are modelled as [string] (one [ascii] per character, so a
    character count is a Python code-point count on the modelled range);
    a parsed JSON document is the tagged tree [json] below, with a Python
    [dict] as an association list in insertion order (keys unique, as
    [json.loads] produces them). *)

#[local] Set Warnings "-register-all".
From Stdlib Require Import ZArith QArith String Ascii List Lia Bool.
From Stdlib Require Import Numbers.DecimalString Numbers.DecimalZ.
Import ListNotations.
Open Scope string_scope.
Open Scope Z_scope.

(** ** The parsed document (RawDocument) *)

(** A Python [float] from [json.loads]: a finite value (a rational), or one of
    the non-finite values [json.loads] accepts (Infinity, -Infinity, NaN). *)
Inductive pyfloat : Type :=
| PFin (q : Q)
| PInf
| PNegInf
| PNaN.

Inductive json : Type :=
| JNull
| JBool (b : bool)
| JInt (z : Z)
| JFloat (x : pyfloat)
| JStr (s : string)
| JArr (l : list json)
| JObj (kvs : list (string * json)).

Definition dict := list (string * json).

(** [k in d] / [d.get(k)] on a dict. *)
Fixpoint lookup (k : string) (d : dict) : option json :=
  match d with
  | [] => None
  | (k', v) :: r => if String.eqb k k' then Some v else lookup k r
  end.

Definition has_key (d : dict) (k : string) : bool :=
  match lookup k d with Some _ => true | None => false end.

(** [d.get(k, default)] *)
Definition get (d : dict) (k : string) (default : json) : json :=
  match lookup k d with Some v => v | None => default end.

(** Python truthiness ([bool(v)]). *)
Definition truthy (v : json) : bool :=
  match v with
  | JNull => false
  | JBool b => b
  | JInt z => negb (Z.eqb z 0)
  | JFloat (PFin q) => negb (Z.eqb (Qnum q) 0)
  | JFloat _ => true
  | JStr s => negb (String.eqb s EmptyString)
  | JArr l => match l with [] => false | _ => true end
  | JObj kvs => match kvs with [] => false | _ => true end
  end.

(** ** Python [int(...)] *)

(** Characters [str.strip] removes in the modelled range
    (\t \n \x0b \x0c \r, \x1c-\x1f and space). *)
Definition is_py_space (c : ascii) : bool :=
  let n := nat_of_ascii c in
  (Nat.leb 9 n && Nat.leb n 13) || (Nat.leb 28 n && Nat.leb n 32).

Fixpoint drop_spaces (l : list ascii) : list ascii :=
  match l with
  | c :: r => if is_py_space c then drop_spaces r else l
  | [] => []
  end.

Definition py_strip (l : list ascii) : list ascii :=
  rev (drop_spaces (rev (drop_spaces l))).

Definition digit_val (c : ascii) : option Z :=
  let n := nat_of_ascii c in
  if Nat.leb 48 n && Nat.leb n 57 then Some (Z.of_nat n - 48) else None.

(** Digits with single underscores between them, [acc] the value so far. *)
Fixpoint parse_digits (acc : Z) (l : list ascii) : option Z :=
  match l with
  | [] => Some acc
  | c :: r =>
      match digit_val c with
      | Some d => parse_digits (acc * 10 + d) r
      | None =>
          if Ascii.eqb c "_" then
            match r with
            | c' :: r' =>
                match digit_val c' with
                | Some d => parse_digits (acc * 10 + d) r'
                | None => None
                end
            | [] => None
            end
          else None
      end
  end.

(** At least one digit first, then the rest. *)
Definition parse_unsigned (l : list ascii) : option Z :=
  match l with
  | c :: r =>
      match digit_val c with
      | Some d => parse_digits d r
      | None => None
      end
  | [] => None
  end.

(** [int(s)] for a [str] in base 10: [None] is the [ValueError]. *)
Definition py_int_of_string (s : string) : option Z :=
  match py_strip (list_ascii_of_string s) with
  | c :: r =>
      if Ascii.eqb c "-" then option_map Z.opp (parse_unsigned r)
      else if Ascii.eqb c "+" then parse_unsigned r
      else parse_unsigned (c :: r)
  | [] => None
  end.

(** [int(v)]: [None] is the exception it raises (TypeError for None, lists
    and dicts, OverflowError for infinities, ValueError for NaN and
    non-numeric strings); a float is truncated toward zero. *)
Definition py_int (v : json) : option Z :=
  match v with
  | JNull => None
  | JBool b => Some (if b then 1 else 0)
  | JInt z => Some z
  | JFloat (PFin q) => Some (Z.quot (Qnum q) (Zpos (Qden q)))
  | JFloat _ => None
  | JStr s => py_int_of_string s
  | JArr _ => None
  | JObj _ => None
  end.

(** ** [deep_iter] and [extract_counts] *)

(** [deep_iter(obj)]: every dict of the tree, in pre-order. *)
Fixpoint deep_iter (j : json) : list dict :=
  match j with
  | JObj kvs =>
      kvs :: (fix go (kvs : list (string * json)) : list dict :=
                match kvs with
                | [] => []
                | (_, v) :: r => (deep_iter v ++ go r)%list
                end) kvs
  | JArr l =>
      (fix go (l : list json) : list dict :=
         match l with
         | [] => []
         | v :: r => (deep_iter v ++ go r)%list
         end) l
  | _ => []
  end.

(** The local [unwrap] of [extract_counts]. *)
Definition unwrap (v : json) : json :=
  match v with
  | JObj kvs => match lookup "_value" kvs with Some u => u | None => v end
  | _ => v
  end.

(** [int(unwrap(v) or 0)]; [None] when it raises. *)
Definition coerce (v : json) : option Z :=
  let u := unwrap v in
  if truthy u then py_int u else Some 0.

Definition counts := (Z * Z * Z)%type.

(** A direct-read pattern: keys [kp] and [kf] present, read [kp], [kf], [ks]. *)
Definition direct_pattern (kp kf ks : string) (n : dict) : option counts :=
  if has_key n kp && has_key n kf then
    match coerce (get n kp (JInt 0)), coerce (get n kf (JInt 0)),
          coerce (get n ks (JInt 0)) with
    | Some p, Some f, Some s => Some (p, f, s)
    | _, _, _ => None
    end
  else None.

(** Pattern 0 of the source: passedTests / failedTests / skippedTests. *)
Definition pattern_summary (n : dict) : option counts :=
  direct_pattern "passedTests" "failedTests" "skippedTests" n.

(** totalTestCount + failedTests or testsFailedCount (+ skipped). *)
Definition pattern_total (n : dict) : option counts :=
  if has_key n "totalTestCount"
     && (has_key n "failedTests" || has_key n "testsFailedCount") then
    match coerce (get n "totalTestCount" (JInt 0)),
          coerce (get n "failedTests" (get n "testsFailedCount" (JInt 0))),
          coerce (get n "skippedTests" (get n "testsSkippedCount" (JInt 0))) with
    | Some total, Some f, Some s => Some (Z.max (total - f - s) 0, f, s)
    | _, _, _ => None
    end
  else None.

Definition pattern_a (n : dict) : option counts :=
  direct_pattern "passed" "failed" "skipped" n.

Definition pattern_b (n : dict) : option counts :=
  direct_pattern "testsPassedCount" "testsFailedCount" "testsSkippedCount" n.

Definition pattern_alt (n : dict) : option counts :=
  direct_pattern "passedCount" "failedCount" "skippedCount" n.

(** The body of the loop on one node: the patterns in source order, each
    skipped when its guard is false or its coercion raises. *)
Definition match_node (n : dict) : option counts :=
  match pattern_summary n with
  | Some c => Some c
  | None =>
  match pattern_total n with
  | Some c => Some c
  | None =>
  match pattern_a n with
  | Some c => Some c
  | None =>
  match pattern_b n with
  | Some c => Some c
  | None => pattern_alt n
  end end end end.

Fixpoint first_match (nodes : list dict) : counts :=
  match nodes with
  | [] => (0, 0, 0)
  | n :: r => match match_node n with Some c => c | None => first_match r end
  end.

(** [extract_counts(data)]: every exception of a coercion is caught inside the
    loop, so the function is total. *)
Definition extract_counts (data : json) : counts :=
  first_match (deep_iter data).

Example ex_a : extract_counts (JObj [("passedTests", JInt 10); ("failedTests", JInt 2); ("skippedTests", JInt 1)]) = (10, 2, 1).
Proof. reflexivity. Qed.
Example ex_b : extract_counts (JObj [("totalTestCount", JInt 100); ("failedTests", JInt 5)]) = (95, 5, 0).
Proof. reflexivity. Qed.
Example ex_str : py_int_of_string " -1_000 " = Some (-1000).
Proof. reflexivity. Qed.
Example ex_str2 : py_int_of_string "1__0" = None.
Proof. reflexivity. Qed.

(** ** Exceptions and results *)

(** The Python exceptions the modelled code can raise. *)
Inductive exn : Type :=
| TypeError
| RuntimeError (msg : string)
| PyExc (exc_type msg : string).   (* an exception let through unchanged: its class and str() *)

Inductive result (A : Type) : Type :=
| Ok (a : A)
| Raise (e : exn).
Arguments Ok {A} a.
Arguments Raise {A} e.

(** ** Detail extraction ([_extract_details_from_summary]) *)

(** [a or b] *)
Definition py_or (a b : json) : json := if truthy a then a else b.

Fixpoint has_char (c : ascii) (s : string) : bool :=
  match s with
  | EmptyString => false
  | String x r => Ascii.eqb x c || has_char c r
  end.

(** [s.split(c)] for a one-character separator. *)
Fixpoint split_on (c : ascii) (s : string) : list string :=
  match s with
  | EmptyString => [EmptyString]
  | String x r =>
      let parts := split_on c r in
      if Ascii.eqb x c then EmptyString :: parts
      else match parts with
           | p :: ps => String x p :: ps
           | [] => [String x EmptyString]
           end
  end.

(** A detail dict as the source builds it: every key present. *)
Record detail : Type := {
  d_name : json;
  d_status : json;
  d_suite : json;
  d_failure : json;
  d_test_id : json
}.

Section Details.
(** Python's [str()] on a JSON value. *)
Variable py_str : json -> string.

(** [failure_text[:100] if failure_text else '']: a slice of a [str] or a
    [list]; slicing any other truthy value raises. *)
Definition excerpt (failure_text : json) : result json :=
  if truthy failure_text then
    match failure_text with
    | JStr s => Ok (JStr (substring 0 100 s))
    | JArr l => Ok (JArr (firstn 100 l))
    | _ => Raise TypeError
    end
  else Ok (JStr EmptyString).

(** [suite or target] after the [split("/")] step. *)
Definition suite_of (test_id target : json) : json :=
  let suite :=
    if truthy test_id && has_char "/" (py_str test_id) then
      let parts := split_on "/" (py_str test_id) in
      if Nat.leb 2 (length parts) then JStr (nth (length parts - 2) parts EmptyString)
      else target
    else JStr EmptyString in
  py_or suite target.

(** The body of the loop on one entry of [testFailures]. *)
Definition detail_of_failure (failure : json) : result (option detail) :=
  match failure with
  | JObj f =>
      let test_name :=
        py_or (py_or (get f "testName" JNull) (get f "testIdentifierString" JNull))
              (JStr EmptyString) in
      let test_id :=
        py_or (py_or (get f "testIdentifierString" JNull)
                     (get f "testIdentifierURL" JNull)) (JStr EmptyString) in
      let target := py_or (get f "targetName" JNull) (JStr EmptyString) in
      let failure_text := py_or (get f "failureText" JNull) (JStr EmptyString) in
      if truthy test_name then
        match excerpt failure_text with
        | Ok ex =>
            Ok (Some {| d_name := test_name;
                        d_status := JStr "Failed";
                        d_suite := suite_of test_id target;
                        d_failure := ex;
                        d_test_id := py_or test_id (JStr EmptyString) |})
        | Raise e => Raise e
        end
      else Ok None
  | _ => Ok None
  end.

Fixpoint details_loop (l : list json) : result (list detail) :=
  match l with
  | [] => Ok []
  | x :: r =>
      match detail_of_failure x with
      | Raise e => Raise e
      | Ok o =>
          match details_loop r with
          | Raise e => Raise e
          | Ok ds => Ok (match o with Some d => d :: ds | None => ds end)
          end
      end
  end.

(** [_extract_details_from_summary(data, log_path)]; the log lines are not
    modelled. *)
Definition extract_details (data : json) : result (option (list detail)) :=
  match data with
  | JObj d =>
      match lookup "testFailures" d with
      | Some (JArr l) =>
          match details_loop l with
          | Ok [] => Ok None
          | Ok ds => Ok (Some ds)
          | Raise e => Raise e
          end
      | _ => Ok None
      end
  | _ => Ok None
  end.
End Details.

(** A rendering of [str()], exact on strings, integers, booleans and None;
    the theorems hold for every rendering that is the identity on strings,
    this one only evaluates the concrete cases. *)
Definition py_str_model (v : json) : string :=
  match v with
  | JNull => "None"
  | JBool true => "True"
  | JBool false => "False"
  | JInt z => NilEmpty.string_of_int (Z.to_int z)
  | JStr s => s
  | _ => EmptyString
  end.

(** *** The detail records as the claim describes them, for entries whose
    fields are strings (or absent, or null) *)

Definition sval (v : json) : string := match v with JStr s => s | _ => EmptyString end.

Definition str_field (f : dict) (k : string) : string := sval (get f k JNull).

Definition field_ok (f : dict) (k : string) : bool :=
  match lookup k f with
  | None | Some JNull | Some (JStr _) => true
  | _ => false
  end.

Definition entry_ok (e : json) : bool :=
  match e with
  | JObj f =>
      forallb (field_ok f)
        ["testName"; "testIdentifierString"; "testIdentifierURL";
         "targetName"; "failureText"]
  | _ => true
  end.

(** The first non-empty of two strings. *)
Definition sfirst (a b : string) : string := if String.eqb a EmptyString then b else a.

Definition spec_name (f : dict) : string :=
  sfirst (str_field f "testName") (str_field f "testIdentifierString").

Definition spec_test_id (f : dict) : string :=
  sfirst (str_field f "testIdentifierString") (str_field f "testIdentifierURL").

Definition second_to_last_segment (s : string) : string :=
  let parts := split_on "/" s in nth (length parts - 2) parts EmptyString.

(** Suite: the second-to-last [/]-segment of the identifier when it has a
    slash and that segment is non-empty, otherwise the target name. *)
Definition spec_suite (f : dict) : string :=
  let id := spec_test_id f in
  if has_char "/" id && negb (String.eqb (second_to_last_segment id) EmptyString)
  then second_to_last_segment id
  else str_field f "targetName".

(** The entries of the list that are dicts with a non-empty test name. *)
Fixpoint named_entries (l : list json) : list dict :=
  match l with
  | [] => []
  | JObj f :: r =>
      if String.eqb (spec_name f) EmptyString then named_entries r else f :: named_entries r
  | _ :: r => named_entries r
  end.

(** The record of one entry as the claim describes it. *)
Definition record_spec (f : dict) (r : detail) : Prop :=
  d_name r = JStr (spec_name f) /\
  d_status r = JStr "Failed" /\
  d_suite r = JStr (spec_suite f) /\
  d_test_id r = JStr (spec_test_id f) /\
  exists ex, d_failure r = JStr ex /\
             prefix ex (str_field f "failureText") = true /\
             String.length ex = Nat.min 100 (String.length (str_field f "failureText")).

(** ** Report rendering ([build_html]) *)

(** The template texts below are the literal parts of the f-strings of
    [build_html] (doubled braces undone), written with a backquote for each
    double quote of the HTML; [qq] puts the double quotes back. *)
Fixpoint qq (s : string) : string :=
  match s with
  | EmptyString => EmptyString
  | String c r =>
      String (if Ascii.eqb c (ascii_of_nat 96) then ascii_of_nat 34 else c) (qq r)
  end.

(** Template head, split at {title}, {title}, {total}, {passed}, {failed}, {skipped}, {source_name}. *)
Definition head_0 : string := Eval cbv in qq "<!doctype html>
<html lang=`en`>
<head>
  <meta charset=`utf-8` />
  <title>".

Definition head_1 : string := Eval cbv in qq "</title>
  <meta name=`viewport` content=`width=device-width, initial-scale=1` />
  <meta name=`color-scheme` content=`dark` />
  <style>
    body { font-family: -apple-system, BlinkMacSystemFont, 'Segoe UI', Roboto,
                Arial, sans-serif; margin: 32px; background: #1a1a1a; color: #e0e0e0; }
    .card { border: 1px solid #3a3a3a; border-radius: 12px; padding: 20px;
             max-width: 720px; box-shadow: 0 4px 12px rgba(0,0,0,0.3); background: #2b2b2b; }
    h1, h2 { margin: 0 0 8px 0; font-size: 22px; color: #fff; }
    h2 { font-size: 18px; margin-top: 4px; }
    .meta { color: #9ca3af; margin-bottom: 16px; font-size: 14px; }
    .grid { display: grid; grid-template-columns: repeat(4, 1fr); gap: 10px;
             margin: 16px 0 12px; }
    .kpi { border: 1px solid #3a3a3a; border-radius: 10px; padding: 12px;
            text-align: center; background: #1f1f1f; }
    .kpi .label { color: #9ca3af; font-size: 12px; }
    .kpi .value { font-size: 20px; margin-top: 6px; color: #fff; }
    .small { color: #9ca3af; font-size: 12px; margin-top: 10px; }
    canvas { max-width: 520px; margin: auto; }
    table { color: #e0e0e0; }
    th { color: #d1d5db; }
    @media print {
      body { background: #fff !important; color: #111 !important; -webkit-print-color-adjust: exact; print-color-adjust: exact; }
      .card { background: #fff !important; border-color: #333 !important; box-shadow: none !important; color: #111 !important; }
      .card * { color: #111 !important; }
      h1, h2 { color: #111 !important; }
      .meta, .small, .kpi .label { color: #444 !important; }
      .kpi { background: #f5f5f5 !important; border-color: #ccc !important; color: #111 !important; }
      .kpi .value { color: #111 !important; }
      table, th, td { color: #111 !important; border-color: #333 !important; }
      td { border-bottom-color: #ddd !important; }
      body > p { color: #444 !important; }
    }
  </style>
</head>
<body>
  <div class=`card`>
    <h1>".

Definition head_2 : string := Eval cbv in qq "</h1>
    <div class=`meta`>This report is intended to be a quick overview of the test results. For detailed test results, please view the original xcresult bundle.</div>
    <div class=`grid`>
      <div class=`kpi`><div class=`label`>Total</div><div class=`value`>".

Definition head_3 : string := Eval cbv in qq "</div></div>
      <div class=`kpi`><div class=`label`>Passed</div><div class=`value`>".

Definition head_4 : string := Eval cbv in qq "</div></div>
      <div class=`kpi`><div class=`label`>Failed</div><div class=`value`>".

Definition head_5 : string := Eval cbv in qq "</div></div>
      <div class=`kpi`><div class=`label`>Skipped</div><div class=`value`>".

Definition head_6 : string := Eval cbv in qq "</div></div>
    </div>
    <canvas id=`pie` width=`520` height=`320`></canvas>
    <div class=`small`>Source: ".

Definition head_7 : string := Eval cbv in qq "</div>
  </div>".

Definition note_screenshots : string := Eval cbv in qq "Screenshots included below when available.".

Definition note_no_screenshots : string := Eval cbv in qq "Best-effort list of tests discovered in the xcresult summary. Screenshots and other rich attachments are not included.".

(** Template details_open, split at {meta_note}. *)
Definition details_open_0 : string := Eval cbv in qq "
  <div class=`card` style=`margin-top:24px;`>
    <h2>Test details</h2>
    <p class=`meta`>".

Definition details_open_1 : string := Eval cbv in qq "</p>
    <table style=`width:100%; border-collapse:collapse; font-size:13px;`>
      <thead>
        <tr>
          <th style=`text-align:left; border-bottom:1px solid #404040; padding:6px;`>Test</th>
          <th style=`text-align:left; border-bottom:1px solid #404040; padding:6px;`>Suite</th>
          <th style=`text-align:left; border-bottom:1px solid #404040; padding:6px;`>Status</th>".

Definition failure_header : string := Eval cbv in qq "
          <th style=`text-align:left; border-bottom:1px solid #404040; padding:6px;`>Failure</th>".

Definition thead_close : string := Eval cbv in qq "
        </tr>
      </thead>
      <tbody>
".

Definition color_failed : string := Eval cbv in qq "#ef4444".

Definition color_passed : string := Eval cbv in qq "#22c55e".

Definition color_other : string := Eval cbv in qq "#f59e0b".

(** Template row, split at {name}, {suite}, {status_color}, {status}. *)
Definition row_0 : string := Eval cbv in qq "        <tr>
          <td style=`border-bottom:1px solid #404040; padding:4px 6px;`>".

Definition row_1 : string := Eval cbv in qq "</td>
          <td style=`border-bottom:1px solid #404040; padding:4px 6px;`>".

Definition row_2 : string := Eval cbv in qq "</td>
          <td style=`border-bottom:1px solid #404040; padding:4px 6px; color:".

Definition row_3 : string := Eval cbv in qq "; font-weight:bold;`>".

Definition row_4 : string := Eval cbv in qq "</td>".

(** Template row_failure, split at {failure}. *)
Definition row_failure_0 : string := Eval cbv in qq "
          <td style=`border-bottom:1px solid #404040; padding:4px 6px; font-size:12px; color:#9ca3af;`>".

Definition row_failure_1 : string := Eval cbv in qq "</td>".

Definition row_close : string := Eval cbv in qq "
        </tr>
".

(** Template shot_open, split at {colspan}. *)
Definition shot_open_0 : string := Eval cbv in qq "        <tr>
          <td colspan=`".

Definition shot_open_1 : string := Eval cbv in qq "` style=`border-bottom:1px solid #404040; padding:8px 6px; background:#1f1f1f;`>
            <div style=`font-size:11px; color:#9ca3af; margin-bottom:4px;`>Screenshots</div>
            <div style=`display:flex; flex-wrap:wrap; gap:8px;`>".

(** Template img_tag, split at {src}, {fn}. *)
Definition img_tag_0 : string := Eval cbv in qq "<img src=`".

Definition img_tag_1 : string := Eval cbv in qq "` alt=`".

Definition img_tag_2 : string := Eval cbv in qq "` style=`max-width:280px; max-height:200px; border:1px solid #404040; border-radius:4px;` />".

(** Template more_tag, split at {len(imgs)-10}. *)
Definition more_tag_0 : string := Eval cbv in qq "<span style=`font-size:12px; color:#9ca3af;`>+".

Definition more_tag_1 : string := Eval cbv in qq " more</span>".

Definition shot_close : string := Eval cbv in qq "</div>
          </td>
        </tr>
".

Definition details_close : string := Eval cbv in qq "      </tbody>
    </table>
  </div>
".

(** Template tail, split at {passed}, {failed}, {skipped}. *)
Definition tail_0 : string := Eval cbv in qq "
  <script src=`https://cdn.jsdelivr.net/npm/chart.js`></script>
  <script>
    Chart.defaults.color = '#d1d5db';
    Chart.defaults.borderColor = '#404040';
    const ctx = document.getElementById('pie');
    new Chart(ctx, {
      type: 'pie',
      data: {
        labels: ['Passed', 'Failed', 'Skipped'],
        datasets: [{ data: [".

Definition tail_1 : string := Eval cbv in qq ", ".

Definition tail_2 : string := Eval cbv in qq ", ".

Definition tail_3 : string := Eval cbv in qq "],
          backgroundColor: ['#22c55e', '#ef4444', '#f59e0b'],
          borderColor: '#2b2b2b',
          borderWidth: 2 }]
      },
      options: {
        responsive: true,
        plugins: { legend: { position: 'bottom', labels: { color: '#d1d5db' } }, title: { display: false } }
      }
    });
  </script>
  <hr style=`border: none; border-top: 1px solid #404040; margin: 24px 0 0 0;` />
  <br /><br /><br />
  <p style=`color: #6b7280; font-size: 12px; margin: 0;`>This was built with passion</p>
</body>
</html>
".

(** [str(n)] for an [int]. *)
Definition str_int (z : Z) : string := NilEmpty.string_of_int (Z.to_int z).

(** [needle in hay] for strings. *)
Definition str_contains (needle hay : string) : bool :=
  match index 0 needle hay with Some _ => true | None => false end.

(** [hay.endswith(needle)] *)
Definition str_endswith (hay needle : string) : bool :=
  let lh := String.length hay in
  let ln := String.length needle in
  Nat.leb ln lh && String.eqb (substring (lh - ln) ln hay) needle.

(** [s.split("/")[-1]] *)
Definition last_segment (s : string) : string := last (split_on "/" s) EmptyString.

(** A screenshot index: [Dict[str, List[str]]], in insertion order; the
    keys are [str], as [build_html]'s annotation declares. *)
Definition screenshot_index := list (string * list string).

Fixpoint index_get (k : string) (m : screenshot_index) : option (list string) :=
  match m with
  | [] => None
  | (k', v) :: r => if String.eqb k k' then Some v else index_get k r
  end.

(** The condition of the fallback loop on one key. *)
Definition key_matches (test_id key : string) : bool :=
  str_contains test_id key || str_endswith key test_id
  || (negb (String.eqb test_id EmptyString)
      && String.eqb (last_segment key) (last_segment test_id)).

(** The first key, in map order, the fallback loop stops at. *)
Fixpoint fallback_lookup (test_id : string) (m : screenshot_index)
    : option (list string) :=
  match m with
  | [] => None
  | (k, v) :: r => if key_matches test_id k then Some v else fallback_lookup test_id r
  end.

(** [imgs] after the selection: [get(test_id)], and when that is falsy the
    fallback loop; [None] and [[]] both render nothing, so both are [[]]. *)
Definition select_screenshots (test_id : string) (m : screenshot_index)
    : list string :=
  match index_get test_id m with
  | Some (i :: is) => i :: is
  | imgs =>
      match fallback_lookup test_id m with
      | Some v => v
      | None => match imgs with Some l => l | None => [] end
      end
  end.

Definition status_color (status : json) : string :=
  match status with
  | JStr s =>
      if String.eqb s "Failed" then color_failed
      else if String.eqb s "Passed" then color_passed else color_other
  | _ => color_other
  end.

Definition img_html (dir fn : string) : string :=
  img_tag_0 ++ (dir ++ "/" ++ fn) ++ img_tag_1 ++ fn ++ img_tag_2.

(** The inline screenshot row of one detail row (empty when [imgs] is). *)
Definition screenshot_row (has_failures : bool) (dir : string) (imgs : list string)
    : string :=
  match imgs with
  | [] => EmptyString
  | _ =>
      shot_open_0 ++ str_int (if has_failures then 4 else 3) ++ shot_open_1
      ++ String.concat EmptyString (map (img_html dir) (firstn 10 imgs))
      ++ (if Nat.ltb 10 (List.length imgs)
          then more_tag_0 ++ str_int (Z.of_nat (List.length imgs) - 10) ++ more_tag_1
          else EmptyString)
      ++ shot_close
  end.

Section Render.
Variable py_str : json -> string.

(** One iteration of the rows loop; [test_id in key] raises a TypeError
    for an identifier that is not a [str]. *)
Definition render_item (has_failures has_screenshots : bool) (dir : string)
    (m : screenshot_index) (item : detail) : result string :=
  let row :=
    row_0 ++ py_str (d_name item) ++ row_1 ++ py_str (d_suite item) ++ row_2
    ++ status_color (d_status item) ++ row_3 ++ py_str (d_status item) ++ row_4
    ++ (if has_failures
        then row_failure_0 ++ py_str (d_failure item) ++ row_failure_1 else EmptyString)
    ++ row_close in
  if has_screenshots then
    match d_test_id item with
    | JStr tid => Ok (row ++ screenshot_row has_failures dir (select_screenshots tid m))
    | _ => Raise TypeError
    end
  else Ok row.

Fixpoint render_items (has_failures has_screenshots : bool) (dir : string)
    (m : screenshot_index) (items : list detail) : result string :=
  match items with
  | [] => Ok EmptyString
  | it :: r =>
      match render_item has_failures has_screenshots dir m it with
      | Raise e => Raise e
      | Ok a =>
          match render_items has_failures has_screenshots dir m r with
          | Raise e => Raise e
          | Ok b => Ok (a ++ b)
          end
      end
  end.

Definition html_header (passed failed skipped : Z) (source_name title : string)
    : string :=
  head_0 ++ title ++ head_1 ++ title ++ head_2 ++ str_int (passed + failed + skipped)
  ++ head_3 ++ str_int passed ++ head_4 ++ str_int failed ++ head_5
  ++ str_int skipped ++ head_6 ++ source_name ++ head_7.

Definition html_trailer (passed failed skipped : Z) : string :=
  tail_0 ++ str_int passed ++ tail_1 ++ str_int failed ++ tail_2
  ++ str_int skipped ++ tail_3.

(** [build_html(passed, failed, skipped, source_name, title, details,
    screenshot_dir_relative, screenshot_map)] *)
Definition build_html (passed failed skipped : Z) (source_name title : string)
    (details : option (list detail)) (screenshot_dir_relative : option string)
    (screenshot_map : option screenshot_index) : result string :=
  let details_html :=
    match details with
    | Some ((_ :: _) as items) =>
        let m := match screenshot_map with Some m => m | None => [] end in
        let dir := match screenshot_dir_relative with Some d => d | None => EmptyString end in
        let has_screenshots :=
          negb (String.eqb dir EmptyString) && match m with [] => false | _ => true end in
        let has_failures := existsb (fun it => truthy (d_failure it)) items in
        let meta_note :=
          if has_screenshots then note_screenshots else note_no_screenshots in
        match render_items has_failures has_screenshots dir m items with
        | Raise e => Raise e
        | Ok rows =>
            Ok (details_open_0 ++ meta_note ++ details_open_1
                ++ (if has_failures then failure_header else EmptyString)
                ++ thead_close ++ rows ++ details_close)
        end
    | _ => Ok EmptyString
    end in
  match details_html with
  | Raise e => Raise e
  | Ok dh =>
      Ok (html_header passed failed skipped source_name title ++ dh
          ++ html_trailer passed failed skipped)
  end.
End Render.

(** *** Reading the counts back from a report *)

Fixpoint strip_prefix (p l : list ascii) : option (list ascii) :=
  match p with
  | [] => Some l
  | c :: p' =>
      match l with
      | [] => None
      | d :: l' => if Ascii.eqb c d then strip_prefix p' l' else None
      end
  end.

Fixpoint take_until (c : ascii) (l : list ascii) : list ascii :=
  match l with
  | [] => []
  | d :: r => if Ascii.eqb d c then [] else d :: take_until c r
  end.

(** A decimal integer as [str(int)] writes it. *)
Definition parse_int (s : string) : option Z :=
  option_map Z.of_int (NilEmpty.int_of_string s).

Definition drop_space (s : string) : string :=
  match s with
  | String c r => if Ascii.eqb c " " then r else s
  | EmptyString => s
  end.

(** The chart's data array read back from a produced document: the
    document is taken from its end, the closing text that follows the array
    is removed, the array is the text after the last [[], and its three
    comma-separated numerals are parsed. *)
Definition reparse_chart (out : string) : option counts :=
  match strip_prefix (rev (list_ascii_of_string tail_3))
                     (rev (list_ascii_of_string out)) with
  | None => None
  | Some rest =>
      let nums := string_of_list_ascii (rev (take_until "[" rest)) in
      match split_on "," nums with
      | [a; b; c] =>
          match parse_int a, parse_int (drop_space b), parse_int (drop_space c) with
          | Some p, Some f, Some s => Some (p, f, s)
          | _, _, _ => None
          end
      | _ => None
      end
  end.

(** The KPI cells of the passed, failed and skipped counts as the header
    writes them. *)
Definition html_kpis (passed failed skipped : Z) : string :=
  head_3 ++ str_int passed ++ head_4 ++ str_int failed ++ head_5
  ++ str_int skipped ++ head_6.

(** [a] occurs in [b]. *)
Definition occurs_in (a b : string) : Prop := exists x y, b = x ++ a ++ y.

(** ** The pipeline: [run_xcresulttool] and [_process_xcresult_to_html] *)

Definition nl : string := String (ascii_of_nat 10) EmptyString.

(** [s.strip()], on ASCII whitespace. *)
Definition str_strip (s : string) : string :=
  string_of_list_ascii (py_strip (list_ascii_of_string s)).

(** What [subprocess.run(cmd, capture_output=True, text=True, check=False)]
    gives back: [FileNotFoundError] (with [str()] of the exception), another
    exception it raises (its class and [str()]: [PermissionError] for an
    [xcrun] that is not executable, [OSError] for one that is not a
    program, [UnicodeDecodeError] for output that is not in the locale's
    encoding, ...), or the completed process with its return code, stdout
    and stderr. *)
Inductive run_outcome : Type :=
| NotFound (exc : string)
| RunRaised (exc_type exc : string)
| Ran (returncode : Z) (stdout stderr : string).

(** What the pipeline does to the file system, in order. *)
Inductive file_write : Type :=
| FileWrite (path contents : string)   (* the file at [path] now holds [contents] *)
| LogAppend (path : string)            (* [_log(path, msg)]: one line appended (its text is not modelled) *)
| MakeDir (path : string)              (* a directory created *)
| PdfWrite (path : string).            (* WeasyPrint's [write_pdf(path)] *)

(** [open(p, "w")] followed by [write(contents)] (with its [close]): both
    succeed; [open] raises, and the file is untouched; or [open] has
    created or truncated the file and writing raises once the first [n]
    characters are in it. [str()] of the exception is given. *)
Inductive write_result : Type :=
| Written
| OpenFailed (err : string)
| WriteFailed (n : nat) (err : string).

Definition write_effects (p contents : string) (r : write_result) : list file_write :=
  match r with
  | Written => [FileWrite p contents]
  | OpenFailed _ => []
  | WriteFailed n _ => [FileWrite p (substring 0 n contents)]
  end.

Definition write_err (r : write_result) : string :=
  match r with
  | Written => EmptyString
  | OpenFailed err | WriteFailed _ err => err
  end.

(** The outside world the pipeline talks to. *)
Record env : Type := {
  xcrun_path : string;                       (* shutil.which("xcrun") or "/usr/bin/xcrun" *)
  abspath : string -> string;                (* os.path.abspath *)
  run : list string -> run_outcome;          (* subprocess.run *)
  json_loads : string -> string + json;      (* json.loads: inl (str(exc)) when it raises *)
  py_str_env : json -> string;               (* str() *)
  export_attachments : string -> string -> string ->
    list file_write * result (option string * option screenshot_index);
      (* _export_attachments(xcresult, out_html, log): what it does to the
         file system (screenshot directory, exported files, log lines) and
         what it returns or raises *)
  path_name : string -> string;              (* Path(p).name *)
  with_json_suffix : string -> string + string;
      (* str(Path(p).with_suffix(".json")); inl (str(exc)) when it raises
         ValueError, as for a path with an empty name such as "." or "/" *)
  write_file : string -> string -> write_result;   (* open(p, "w") and write *)
  log_ok : string -> bool                    (* whether _log's append to p succeeds *)
}.

(** [_log(log_path, msg)]: one line more in the log when the append
    succeeds; [_log] swallows its own errors. *)
Definition log (E : env) (log_path : string) : list file_write :=
  if log_ok E log_path then [LogAppend log_path] else [].

Definition candidates (E : env) (xcresult_path : string) : list (list string) :=
  [[xcrun_path E; "xcresulttool"; "get"; "test-results"; "summary"; "--path";
    xcresult_path; "--compact"];
   [xcrun_path E; "xcresulttool"; "get"; "--legacy"; "--path"; xcresult_path;
    "--format"; "json"];
   [xcrun_path E; "xcresulttool"; "get"; "--path"; xcresult_path; "--format"; "json"]].

(** [" ".join(cmd)] *)
Definition cmd_text (cmd : list string) : string := String.concat " " cmd.

(** The loop of [run_xcresulttool] over the command variants; only
    [FileNotFoundError] is caught, any other exception of [subprocess.run]
    propagates. *)
Fixpoint run_candidates (E : env) (cands : list (list string))
    (last_stderr last_cmd : string) : result (option string * string * string) :=
  match cands with
  | [] => Ok (None, last_stderr, last_cmd)
  | cmd :: r =>
      let last_cmd := cmd_text cmd in
      match run E cmd with
      | NotFound exc =>
          Ok (None, "Could not execute " ++ hd EmptyString cmd ++ ": " ++ exc, last_cmd)
      | RunRaised t exc => Raise (PyExc t exc)
      | Ran rc out err =>
          if Z.eqb rc 0 && negb (String.eqb (str_strip out) EmptyString) then
            Ok (Some out, err, last_cmd)
          else
            run_candidates E r
              (if String.eqb (str_strip err) EmptyString then last_stderr else err)
              last_cmd
      end
  end.

(** [run_xcresulttool(xcresult_path)]: (stdout or None, stderr, command). *)
Definition run_xcresulttool (E : env) (xcresult_path : string)
    : result (option string * string * string) :=
  run_candidates E (candidates E (abspath E xcresult_path)) EmptyString EmptyString.

(** The message of the error raised when no variant produced output. *)
Definition extraction_error (cmd_text err_text : string) : string :=
  "Failed to extract summary from xcresult." ++ nl ++ nl ++
  (if String.eqb cmd_text EmptyString then EmptyString
   else ("Command: " ++ cmd_text) ++ nl ++ nl) ++
  (if String.eqb (str_strip err_text) EmptyString then "No error output captured."
   else ("Error output:" ++ nl ++ str_strip err_text) ++ nl).

(** The message of the error raised when [json.loads] raises. *)
Definition parse_error (exc : string) : string :=
  "Failed to parse JSON summary: " ++ exc.

(** Whether a value is truthy as [details] ([None] or a list). *)
Definition details_truthy (details : option (list detail)) : bool :=
  match details with Some (_ :: _) => true | _ => false end.

(** [_extract_details_from_summary(data, log_path)]: its log lines and its
    result ([extract_details]); it logs twice for a dict (once before the
    loop, once after it) and not at all otherwise. *)
Definition extract_details_logged (E : env) (log_path : string) (data : json)
    : list file_write * result (option (list detail)) :=
  let L := log E log_path in
  match data with
  | JObj _ =>
      match extract_details (py_str_env E) data with
      | Raise e => (L, Raise e)
      | Ok details => ((L ++ L)%list, Ok details)
      end
  | _ => ([], extract_details (py_str_env E) data)
  end.

(** [_process_xcresult_to_html(xcresult_path, out_html_path, log_path,
    report_title, include_details, include_screenshots)]: what it does to
    the file system, in order, and what it returns or raises. *)
Definition process_xcresult_to_html (E : env) (xcresult_path out_html_path log_path : string)
    (report_title : option string) (include_details include_screenshots : bool)
    : list file_write * result counts :=
  let L := log E log_path in
  match run_xcresulttool E xcresult_path with
  | Raise e => (L, Raise e)
  | Ok (json_str, err_text, cmd_text) =>
  let w1 := (L ++ L ++ (if String.eqb (str_strip err_text) EmptyString then [] else L)
             ++ L)%list in
  match with_json_suffix E out_html_path with
  | inl exc => (w1, Raise (PyExc "ValueError" exc))
  | inr debug_json_path =>
  let w2 :=
    (w1 ++ match json_str with
           | Some js =>
               if String.eqb js EmptyString then []
               else write_effects debug_json_path js (write_file E debug_json_path js)
           | None => []
           end)%list in
  let extraction_failed := (w2, Raise (RuntimeError (extraction_error cmd_text err_text))) in
  match json_str with
  | None => extraction_failed
  | Some js =>
      if String.eqb js EmptyString then extraction_failed else
      match json_loads E js with
      | inl exc => ((w2 ++ L ++ L ++ L)%list, Raise (RuntimeError (parse_error exc)))
      | inr data =>
          let '(passed, failed, skipped) := extract_counts data in
          let w3 := (w2 ++ L ++ L ++
                     (if Z.eqb passed 0 && Z.eqb failed 0 && Z.eqb skipped 0 then L else [])
                    )%list in
          let '(w4, stage) :=
            if include_details then
              let '(wd, rd) := extract_details_logged E log_path data in
              match rd with
              | Raise e => ((w3 ++ wd)%list, Raise e)
              | Ok details =>
                  if details_truthy details && include_screenshots then
                    let '(we, re) := export_attachments E xcresult_path out_html_path log_path in
                    match re with
                    | Raise e => ((w3 ++ wd ++ we)%list, Raise e)
                    | Ok (dir, m) =>
                        ((w3 ++ wd ++ we)%list,
                         Ok (details, dir, match m with Some [] => None | _ => m end))
                    end
                  else ((w3 ++ wd)%list, Ok (details, None, None))
              end
            else (w3, Ok (None, None, None)) in
          match stage with
          | Raise e => (w4, Raise e)
          | Ok (details, dir, m) =>
              let title :=
                match report_title with
                | Some t => if String.eqb t EmptyString then "XCTest Summary" else t
                | None => "XCTest Summary"
                end in
              let w5 := (w4 ++ L)%list in
              match build_html (py_str_env E) passed failed skipped
                      (path_name E xcresult_path) title details dir m with
              | Raise e => (w5, Raise e)
              | Ok html =>
                  let w6 := (w5 ++ L ++ L ++ L ++ L ++
                             (if details_truthy details then L ++ L else []))%list in
                  match write_file E out_html_path html with
                  | Written =>
                      ((w6 ++ FileWrite out_html_path html :: L ++ L ++ L)%list,
                       Ok (passed, failed, skipped))
                  | r =>
                      ((w6 ++ write_effects out_html_path html r ++ L)%list,
                       Raise (RuntimeError ("Failed to write HTML file: " ++ write_err r)))
                  end
              end
          end
      end
  end
  end
  end.

(** The stderr text a variant leaves behind. *)
Definition captured_stderr (cmd : list string) (o : run_outcome) : string :=
  match o with
  | NotFound exc => "Could not execute " ++ hd EmptyString cmd ++ ": " ++ exc
  | RunRaised _ _ => EmptyString
  | Ran _ _ err => err
  end.

(** Whether a variant produced output text. *)
Definition yields_text (o : run_outcome) : bool :=
  match o with
  | NotFound _ | RunRaised _ _ => false
  | Ran rc out _ => Z.eqb rc 0 && negb (String.eqb (str_strip out) EmptyString)
  end.

(** Whether [subprocess.run] raised something other than [FileNotFoundError]. *)
Definition run_raised (o : run_outcome) : bool :=
  match o with RunRaised _ _ => true | _ => false end.

(** [Path(p).with_suffix(".json")] on a path of the form [dir/name]: it
    raises when the name is empty or a dot-only path. *)
Definition sample_with_json_suffix (p : string) : string + string :=
  if String.eqb p "." then inl "PosixPath('.') has an empty name"
  else if String.eqb p "/" then inl "PosixPath('/') has an empty name"
  else if str_endswith p ".html" then
    inr (substring 0 (String.length p - 5) p ++ ".json")
  else inr (p ++ ".json").

(** A sample environment: every variant runs with return code 0, the given
    stdout and an error line on stderr; [json.loads] accepts only [{}];
    every write and every log append succeeds. *)
Definition env_with (stdout : string) : env := {|
  xcrun_path := "/usr/bin/xcrun";
  abspath := fun p => "/tmp/" ++ p;
  run := fun _ => Ran 0 stdout "error: bundle not readable";
  json_loads := fun s =>
    if String.eqb s "{}" then inr (JObj [])
    else inl "Expecting value: line 1 column 1 (char 0)";
  py_str_env := py_str_model;
  export_attachments := fun _ _ _ => ([], Ok (None, None));
  path_name := fun p => p;
  with_json_suffix := sample_with_json_suffix;
  write_file := fun _ _ => Written;
  log_ok := fun _ => true
|}.

(** ** The screenshot manifest: the map [_export_attachments] builds *)

(** [for x in v] over a JSON value: a list gives its items, a dict its keys,
    a string its characters; None, numbers and booleans are not iterable. *)
Definition py_iter (v : json) : result (list json) :=
  match v with
  | JArr l => Ok l
  | JObj d => Ok (map (fun kv => JStr (fst kv)) d)
  | JStr s => Ok (map (fun c => JStr (String c EmptyString)) (list_ascii_of_string s))
  | _ => Raise TypeError
  end.

(** The number a boolean, integer or float stands for. *)
Definition num_of (v : json) : option pyfloat :=
  match v with
  | JBool b => Some (PFin (if b then 1 else 0)%Q)
  | JInt z => Some (PFin (inject_Z z))
  | JFloat x => Some x
  | _ => None
  end.

(** [is] or [==] on float keys; [json.loads] maps every [NaN] to one shared
    float object, so two [NaN] keys are the same key. *)
Definition float_key_eqb (x y : pyfloat) : bool :=
  match x, y with
  | PFin a, PFin b => Qeq_bool a b
  | PInf, PInf | PNegInf, PNegInf | PNaN, PNaN => true
  | _, _ => false
  end.

(** When two hashable keys are the same dict key ([True], [1] and [1.0] are). *)
Definition key_eqb (a b : json) : bool :=
  match a, b with
  | JNull, JNull => true
  | JStr x, JStr y => String.eqb x y
  | _, _ =>
      match num_of a, num_of b with
      | Some x, Some y => float_key_eqb x y
      | _, _ => false
      end
  end.

Definition hashable (v : json) : bool :=
  match v with JArr _ | JObj _ => false | _ => true end.

(** [by_id: Dict[str, List[str]]], in insertion order. *)
Definition by_id_map := list (json * list json).


(** [d[k] = v] on a hashable key: an existing key keeps its place. *)
Fixpoint assoc_set (k : json) (v : list json) (m : by_id_map) : by_id_map :=
  match m with
  | [] => [(k, v)]
  | (k', v') :: r => if key_eqb k k' then (k', v) :: r else (k', v') :: assoc_set k v r
  end.

Definition dict_set (k : json) (v : list json) (m : by_id_map) : result by_id_map :=
  if hashable k then Ok (assoc_set k v m) else Raise TypeError.

(** [filenames]: the [exportedFileName] of every dict attachment with a
    truthy one. *)
Fixpoint exported_names (atts : list json) : list json :=
  match atts with
  | [] => []
  | JObj a :: r =>
      let fn := get a "exportedFileName" JNull in
      if truthy fn then fn :: exported_names r else exported_names r
  | _ :: r => exported_names r
  end.

(** One iteration of the loop over the manifest entries.  For [url != test_id]
    the test is [key_eqb]: where the two differ ([NaN]), Python assigns the
    same list to the same key again, which leaves the map as it is. *)
Definition manifest_step (by_id : by_id_map) (entry : json) : result by_id_map :=
  match entry with
  | JObj d =>
      let test_id := py_or (get d "testIdentifier" JNull)
                           (py_or (get d "testIdentifierURL" JNull) (JStr EmptyString)) in
      let attachments := py_or (get d "attachments" JNull) (JArr []) in
      if negb (truthy test_id) then Ok by_id else
      match py_iter attachments with
      | Raise e => Raise e
      | Ok atts =>
          match exported_names atts with
          | [] => Ok by_id
          | filenames =>
              match dict_set test_id filenames by_id with
              | Raise e => Raise e
              | Ok m =>
                  let url := get d "testIdentifierURL" JNull in
                  if truthy url && negb (key_eqb url test_id)
                  then dict_set url filenames m else Ok m
              end
          end
      end
  | _ => Ok by_id
  end.

Fixpoint manifest_loop (by_id : by_id_map) (entries : list json) : result by_id_map :=
  match entries with
  | [] => Ok by_id
  | e :: r =>
      match manifest_step by_id e with
      | Raise x => Raise x
      | Ok m => manifest_loop m r
      end
  end.

(** [details_list]: the manifest itself when a list, else the first truthy
    of its three keys (or []); any other manifest gives []. *)
Definition manifest_entries (manifest : json) : result (list json) :=
  match manifest with
  | JArr l => Ok l
  | JObj d =>
      py_iter (py_or (get d "testAttachmentDetails" JNull)
                 (py_or (get d "testAttachmentDetailsList" JNull)
                    (py_or (get d "attachments" JNull) (JArr []))))
  | _ => Ok []
  end.

(** The map part of [_export_attachments] on a parsed manifest:
    [by_id if by_id else None]. *)
Definition manifest_by_id (manifest : json) : result (option by_id_map) :=
  match manifest_entries manifest with
  | Raise e => Raise e
  | Ok entries =>
      match manifest_loop [] entries with
      | Raise e => Raise e
      | Ok [] => Ok None
      | Ok m => Ok (Some m)
      end
  end.

(** ** Choosing the report file: [_next_available_report_path] *)

(** The file system and [pathlib] as the function uses them. *)
Record fs_env : Type := {
  fs_exists : string -> bool;                (* Path(p).exists() *)
  fs_parent : string -> string;              (* Path(p).parent *)
  fs_stem : string -> string;                (* Path(p).stem *)
  fs_suffix : string -> string;              (* Path(p).suffix *)
  fs_join : string -> string -> string       (* str(parent / name) *)
}.

(** [parent / f"{stem}_{n}{suffix}"] with [suffix = p.suffix or ".html"]. *)
Definition candidate_path (F : fs_env) (path : string) (n : nat) : string :=
  let suffix :=
    if String.eqb (fs_suffix F path) EmptyString then ".html" else fs_suffix F path in
  fs_join F (fs_parent F path) (fs_stem F path ++ "_" ++ str_int (Z.of_nat n) ++ suffix).

(** The [while] loop from [n], for at most [fuel] probes ([None]: still
    looping). *)
Fixpoint probe_from (F : fs_env) (path : string) (n fuel : nat) : option string :=
  match fuel with
  | O => None
  | S k =>
      if fs_exists F (candidate_path F path n) then probe_from F path (S n) k
      else Some (candidate_path F path n)
  end.

(** [_next_available_report_path(path)], run for at most [fuel] probes. *)
Definition next_available_report_path (F : fs_env) (path : string) (fuel : nat)
    : option string :=
  if negb (fs_exists F path) then Some path else probe_from F path 1 fuel.




(** ** The command line: [run_cli] *)

(** WeasyPrint as [run_cli] meets it. *)
Inductive pdf_engine : Type :=
| WeasyMissing (exc : string)                 (* the import raised *)
| WeasyLoadFails (exc : string)               (* HTML(filename=out_html_path) raised *)
| WeasyWriteFails (created : bool) (exc : string)
    (* write_pdf raised, after creating the PDF file or not *)
| WeasyWrites (pdf_size : option Z).
    (* write_pdf returned; the size of the PDF file, None when there is none *)

(** [run_cli(...)]: what it does to the file system and its exit code;
    [default_log_path] is what [_default_log_path()] gives. *)
Definition run_cli (E : env) (xcresult_path out_html_path : string)
    (log_path : option string) (default_log_path : string)
    (pdf_output_path report_title : option string)
    (include_details include_screenshots : bool) (engine : pdf_engine)
    : list file_write * Z :=
  let lp :=
    match log_path with
    | Some l => if String.eqb l EmptyString then default_log_path else l
    | None => default_log_path
    end in
  let L := log E lp in
  let '(w, r) :=
    process_xcresult_to_html E xcresult_path out_html_path lp report_title
      include_details include_screenshots in
  let w0 := (L ++ L ++ w)%list in
  match r with
  | Raise _ => ((w0 ++ L)%list, 1)
  | Ok _ =>
      match pdf_output_path with
      | Some pdf =>
          if String.eqb pdf EmptyString then (w0, 0) else
          match engine with
          | WeasyMissing _ => ((w0 ++ L)%list, 0)
          | WeasyLoadFails _ => ((w0 ++ L ++ L ++ L ++ L)%list, 1)
          | WeasyWriteFails created _ =>
              ((w0 ++ L ++ L ++ (if created then [PdfWrite pdf] else []) ++ L ++ L ++ L)%list, 1)
          | WeasyWrites size =>
              ((w0 ++ L ++ L ++
                match size with
                | Some z => PdfWrite pdf :: L ++ (if Z.eqb z 0 then L else [])
                | None => L
                end ++ L)%list, 0)
          end
      | None => (w0, 0)
      end
  end.

(** ** The web server ([src/server/app.py]) *)

(** A [pathlib] path as its components, innermost first; the root is []. *)
Definition path := list string.

(** [p.parent]: the root is its own parent. *)
Definition parent (p : path) : path := tl p.

(** [p.name] *)
Definition name_of (p : path) : string := hd EmptyString p.

Definition path_eqb (a b : path) : bool :=
  if list_eq_dec string_dec a b then true else false.

(** The walk in [upload]:
    [while cleanup.parent != UPLOAD_DIR and cleanup.parent != cleanup:
       cleanup = cleanup.parent]; only the root is its own parent. *)
Fixpoint cleanup_dir (upload_dir c : path) : path :=
  match c with
  | [] => []
  | _ :: par => if path_eqb par upload_dir then c else cleanup_dir upload_dir par
  end.

(** [p.suffix == ".xcresult"]: the last dot of the name starts [.xcresult]
    and is not its first character. *)
Definition has_xcresult_suffix (name : string) : bool :=
  Nat.ltb 9 (String.length name) && str_endswith name ".xcresult".

(** The exceptions [upload] catches from [_unpack_upload]. *)
Inductive upload_error : Type :=
| ValueError (msg : string)
| OtherError (msg : string).

(** The outside world of the server. *)
Record server_env : Type := {
  resolve : string -> path;                  (* Path(s).expanduser().resolve() *)
  path_str : path -> string;                 (* str(p) *)
  exists_path : path -> bool;                (* p.exists() *)
  unpack_upload : upload_error + path;       (* _unpack_upload(request.files["file"]) *)
  type_error_text : string                   (* str() of a TypeError *)
}.

(** [_resolve_local_path(raw_path)]: [inl msg] when it raises ValueError(msg). *)
Definition resolve_local_path (S : server_env) (raw_path : string) : string + path :=
  let p := resolve S (str_strip raw_path) in
  if negb (exists_path S p) then inl ("Path does not exist: " ++ path_str S p)
  else if negb (has_xcresult_suffix (name_of p)) then
    inl ("Not a .xcresult bundle: " ++ name_of p ++ ". "
         ++ "Select a path ending in .xcresult.")
  else inr p.

(** [request.form.get(k)]: the first value of the field. *)
Fixpoint form_get (k : string) (form : list (string * string)) : option string :=
  match form with
  | [] => None
  | (k', v) :: r => if String.eqb k k' then Some v else form_get k r
  end.

(** Where [upload] goes: a flash message and a redirect to the index, or
    [_generate_report(xcresult_path, title, include_details, cleanup_path)]. *)
Inductive upload_outcome : Type :=
| Rejected (msg : string)
| Generate (xcresult : path) (title : string) (include_details : bool)
           (cleanup : option path).

(** [upload()], for the form fields and the filename of the [file] part
    ([None] when there is none; a missing filename is the empty string). *)
Definition upload (S : server_env) (upload_dir : path)
    (form : list (string * string)) (filename : option string) : upload_outcome :=
  let title :=
    let t := str_strip (match form_get "title" form with Some t => t | None => EmptyString end) in
    if String.eqb t EmptyString then "XCTest Summary" else t in
  let include_details :=
    match form_get "include_details" form with Some v => String.eqb v "on" | None => false end in
  let local_path :=
    str_strip (match form_get "local_path" form with Some v => v | None => EmptyString end) in
  let has_file :=
    match filename with Some fn => negb (String.eqb fn EmptyString) | None => false end in
  if String.eqb local_path EmptyString && negb has_file then
    Rejected "Provide a path to a .xcresult bundle or upload a zipped one."
  else if negb (String.eqb local_path EmptyString) then
    match resolve_local_path S local_path with
    | inl msg => Rejected msg
    | inr p => Generate p title include_details None
    end
  else
    match unpack_upload S with
    | inl (ValueError msg) => Rejected msg
    | inl (OtherError msg) => Rejected ("Failed to process upload: " ++ msg)
    | inr p => Generate p title include_details (Some (cleanup_dir upload_dir p))
    end.



(** A sample environment with a given runner, otherwise as [env_with]. *)
Definition env_of_run (r : list string -> run_outcome) : env := {|
  xcrun_path := "/usr/bin/xcrun";
  abspath := fun p => "/tmp/" ++ p;
  run := r;
  json_loads := fun s =>
    if String.eqb s "{}" then inr (JObj [])
    else inl "Expecting value: line 1 column 1 (char 0)";
  py_str_env := py_str_model;
  export_attachments := fun _ _ _ => ([], Ok (None, None));
  path_name := fun p => p;
  with_json_suffix := sample_with_json_suffix;
  write_file := fun _ _ => Written;
  log_ok := fun _ => true
|}.

(** A runner for which only the legacy variant produces the summary. *)
Definition legacy_only_run (cmd : list string) : run_outcome :=
  if existsb (String.eqb "--legacy") cmd then Ran 0 "{}" EmptyString
  else Ran 64 EmptyString "error: unknown subcommand".

(** Whether a JSON value is a [str]. *)
Definition is_str (v : json) : bool := match v with JStr _ => true | _ => false end.

(** A key [by_id] can hold, and a value: a non-empty list of truthy names. *)
Definition key_ok (k : json) : bool := truthy k && hashable k.

Definition names_ok (v : list json) : bool :=
  match v with [] => false | _ => forallb truthy v end.

(** A manifest in the list layout: two entries for one test (the later
    with a URL of its own), one without files. *)
Definition sample_manifest : json :=
  JArr [JObj [("testIdentifier", JStr "S/testA");
              ("attachments", JArr [JObj [("exportedFileName", JStr "a1.png")]])];
        JObj [("testIdentifier", JStr "S/testB"); ("attachments", JArr [])];
        JObj [("testIdentifier", JStr "S/testA");
              ("testIdentifierURL", JStr "test://S/testA");
              ("attachments", JArr [JObj [("exportedFileName", JStr "a2.png")];
                                    JObj [("name", JStr "log")]])]].

(** A sample file system: [out/report.html] and [out/report_1.html] exist. *)
Definition sample_existing : list string := ["out/report.html"; "out/report_1.html"].

Definition sample_fs : fs_env := {|
  fs_exists := fun p => existsb (String.eqb p) sample_existing;
  fs_parent := fun _ => "out";
  fs_stem := fun _ => "report";
  fs_suffix := fun _ => ".html";
  fs_join := fun d n => d ++ "/" ++ n
|}.

(** A sample server: every path exists, [str(p)] joins the components. *)
Definition sample_server (unpacked : upload_error + path) : server_env := {|
  resolve := fun s => [s];
  path_str := fun p => String.concat "/" (rev p);
  exists_path := fun _ => true;
  unpack_upload := unpacked;
  type_error_text := "unhashable type"
|}.

(** ** Properties of documents and nodes used by the statements *)

(** Custom induction on [json], through the lists it nests. *)
Section JsonInd.
Variable P : json -> Prop.
Hypothesis H_null : P JNull.
Hypothesis H_bool : forall b, P (JBool b).
Hypothesis H_int : forall z, P (JInt z).
Hypothesis H_float : forall x, P (JFloat x).
Hypothesis H_str : forall s, P (JStr s).
Hypothesis H_arr : forall l, Forall P l -> P (JArr l).
Hypothesis H_obj : forall kvs, Forall (fun kv => P (snd kv)) kvs -> P (JObj kvs).

Fixpoint json_ind' (j : json) : P j :=
  match j with
  | JNull => H_null
  | JBool b => H_bool b
  | JInt z => H_int z
  | JFloat x => H_float x
  | JStr s => H_str s
  | JArr l =>
      H_arr l ((fix go (l : list json) : Forall P l :=
                  match l with
                  | [] => Forall_nil _
                  | v :: r => Forall_cons _ (json_ind' v) (go r)
                  end) l)
  | JObj kvs =>
      H_obj kvs ((fix go (kvs : list (string * json))
                    : Forall (fun kv => P (snd kv)) kvs :=
                    match kvs with
                    | [] => Forall_nil _
                    | kv :: r => Forall_cons _ (json_ind' (snd kv)) (go r)
                    end) kvs)
  end.
End JsonInd.

(** No number, and no string [int()] accepts, anywhere in the document is
    negative. *)
Fixpoint no_negative (j : json) : bool :=
  match j with
  | JInt z => Z.leb 0 z
  | JFloat (PFin q) => Z.leb 0 (Qnum q)
  | JStr s => match py_int_of_string s with Some z => Z.leb 0 z | None => true end
  | JArr l =>
      (fix go (l : list json) : bool :=
         match l with [] => true | v :: r => no_negative v && go r end) l
  | JObj kvs =>
      (fix go (kvs : list (string * json)) : bool :=
         match kvs with [] => true | (_, v) :: r => no_negative v && go r end) kvs
  | _ => true
  end.

(** The key set of a node matches one of the five patterns' guards. *)
Definition keys_match (n : dict) : bool :=
  (has_key n "passedTests" && has_key n "failedTests")
  || (has_key n "totalTestCount"
      && (has_key n "failedTests" || has_key n "testsFailedCount"))
  || (has_key n "passed" && has_key n "failed")
  || (has_key n "testsPassedCount" && has_key n "testsFailedCount")
  || (has_key n "passedCount" && has_key n "failedCount").

(** ** Lemmas on the traversal and the coercions *)

Lemma first_match_app (pre post : list dict) (n : dict) (c : counts) :
  Forall (fun m => match_node m = None) pre ->
  match_node n = Some c ->
  first_match (pre ++ n :: post) = c.
Proof.
  induction 1 as [| m pre Hm _ IH]; intros Hn; simpl.
  - now rewrite Hn.
  - rewrite Hm. now apply IH.
Qed.

Lemma first_match_none (nodes : list dict) :
  Forall (fun m => match_node m = None) nodes -> first_match nodes = (0, 0, 0).
Proof.
  induction 1 as [| m r Hm _ IH]; simpl; [reflexivity | now rewrite Hm].
Qed.

Lemma no_negative_obj (kvs : list (string * json)) :
  no_negative (JObj kvs) = true <->
  (forall k v, In (k, v) kvs -> no_negative v = true).
Proof.
  simpl. induction kvs as [| [k v] r IH]; simpl.
  - split; [intros _ k v [] | reflexivity].
  - rewrite andb_true_iff, IH. split.
    + intros [Hv Hr] k' v' [Heq | Hin]; [injection Heq as <- <-; exact Hv | eauto].
    + intros H. split; eauto.
Qed.

Lemma no_negative_arr (l : list json) :
  no_negative (JArr l) = true <-> (forall v, In v l -> no_negative v = true).
Proof.
  simpl. induction l as [| v r IH]; simpl.
  - split; [intros _ v [] | reflexivity].
  - rewrite andb_true_iff, IH. split.
    + intros [Hv Hr] v' [<- | Hin]; eauto.
    + intros H. split; eauto.
Qed.

(** Every node the traversal yields, in a document with no negative number,
    holds only values with no negative number. *)
Lemma deep_iter_no_negative (d : json) :
  no_negative d = true ->
  forall n, In n (deep_iter d) ->
  forall k v, In (k, v) n -> no_negative v = true.
Proof.
  induction d as [| | | | | l IHl | kvs IHkvs] using json_ind';
    intros Hd n Hn; simpl in Hn; try contradiction.
  - rewrite no_negative_arr in Hd. revert Hd Hn.
    induction IHl as [| v r Hv _ IHr]; intros Hd Hn; simpl in Hn.
    + contradiction.
    + apply in_app_or in Hn as [Hn | Hn].
      * apply (Hv (Hd v (or_introl eq_refl)) n Hn).
      * exact (IHr (fun v' Hin => Hd v' (or_intror Hin)) Hn).
  - pose proof Hd as Hd'. rewrite no_negative_obj in Hd'.
    destruct Hn as [<- | Hn]; [exact Hd' |].
    clear Hd. revert Hd' Hn.
    induction IHkvs as [| [k v] r Hv _ IHr]; intros Hd' Hn; simpl in Hn.
    + contradiction.
    + apply in_app_or in Hn as [Hn | Hn].
      * apply (Hv (Hd' k v (or_introl eq_refl)) n Hn).
      * exact (IHr (fun k' v' Hin => Hd' k' v' (or_intror Hin)) Hn).
Qed.

Definition node_no_negative (n : dict) : Prop :=
  forall k v, In (k, v) n -> no_negative v = true.

Lemma lookup_in (k : string) (n : dict) (v : json) :
  lookup k n = Some v -> In (k, v) n.
Proof.
  induction n as [| [k' v'] r IH]; simpl; [discriminate |].
  destruct (String.eqb_spec k k') as [-> | _]; [intros [= ->]; now left |].
  intros H; right; auto.
Qed.

Lemma get_no_negative (n : dict) (k : string) (d : json) :
  node_no_negative n -> no_negative d = true -> no_negative (get n k d) = true.
Proof.
  unfold get. destruct (lookup k n) eqn:E; [|auto].
  intros Hn _. apply lookup_in in E. eauto.
Qed.

Lemma py_int_no_negative (u : json) (z : Z) :
  no_negative u = true -> py_int u = Some z -> 0 <= z.
Proof.
  destruct u as [| b | z' | [q | | |] | s | l | kvs]; simpl; try discriminate.
  - intros _ [= <-]; destruct b; lia.
  - intros H [= <-]; now apply Z.leb_le.
  - intros H [= <-]. apply Z.quot_pos; [now apply Z.leb_le | lia].
  - destruct (py_int_of_string s); [intros H [= <-]; now apply Z.leb_le | discriminate].
Qed.

Lemma unwrap_no_negative (v : json) :
  no_negative v = true -> no_negative (unwrap v) = true.
Proof.
  destruct v as [| | | | | | kvs]; simpl unwrap; auto.
  intros H. destruct (lookup "_value" kvs) eqn:E; [| exact H].
  apply lookup_in in E. rewrite no_negative_obj in H. eauto.
Qed.

Lemma coerce_no_negative (v : json) (z : Z) :
  no_negative v = true -> coerce v = Some z -> 0 <= z.
Proof.
  unfold coerce. intros H. apply unwrap_no_negative in H.
  destruct (truthy (unwrap v)); [now apply py_int_no_negative | intros [= <-]; lia].
Qed.

Lemma direct_pattern_no_negative (kp kf ks : string) (n : dict) (p f s : Z) :
  node_no_negative n -> direct_pattern kp kf ks n = Some (p, f, s) ->
  0 <= p /\ 0 <= f /\ 0 <= s.
Proof.
  intros Hn. unfold direct_pattern.
  destruct (has_key n kp && has_key n kf); [| discriminate].
  destruct (coerce (get n kp (JInt 0))) as [p'|] eqn:Ep; [| discriminate].
  destruct (coerce (get n kf (JInt 0))) as [f'|] eqn:Ef; [| discriminate].
  destruct (coerce (get n ks (JInt 0))) as [s'|] eqn:Es; [| discriminate].
  intros [= <- <- <-].
  repeat split; eapply coerce_no_negative; eauto; apply get_no_negative; auto.
Qed.

Lemma pattern_total_no_negative (n : dict) (p f s : Z) :
  node_no_negative n -> pattern_total n = Some (p, f, s) ->
  0 <= p /\ 0 <= f /\ 0 <= s.
Proof.
  intros Hn. unfold pattern_total.
  destruct (_ && _); [| discriminate].
  destruct (coerce (get n "totalTestCount" (JInt 0))) as [t|]; [| discriminate].
  destruct (coerce (get n "failedTests" _)) as [f'|] eqn:Ef; [| discriminate].
  destruct (coerce (get n "skippedTests" _)) as [s'|] eqn:Es; [| discriminate].
  intros [= <- <- <-]. repeat split; [lia | |];
    eapply coerce_no_negative; eauto; repeat apply get_no_negative; auto.
Qed.

Lemma match_node_no_negative (n : dict) (p f s : Z) :
  node_no_negative n -> match_node n = Some (p, f, s) ->
  0 <= p /\ 0 <= f /\ 0 <= s.
Proof.
  intros Hn. unfold match_node.
  destruct (pattern_summary n) as [c|] eqn:E1;
    [intros [= ->]; eapply direct_pattern_no_negative; eauto |].
  destruct (pattern_total n) as [c|] eqn:E2;
    [intros [= ->]; eapply pattern_total_no_negative; eauto |].
  destruct (pattern_a n) as [c|] eqn:E3;
    [intros [= ->]; eapply direct_pattern_no_negative; eauto |].
  destruct (pattern_b n) as [c|] eqn:E4;
    [intros [= ->]; eapply direct_pattern_no_negative; eauto |].
  apply direct_pattern_no_negative; auto.
Qed.

Lemma first_match_no_negative (nodes : list dict) (p f s : Z) :
  Forall node_no_negative nodes -> first_match nodes = (p, f, s) ->
  0 <= p /\ 0 <= f /\ 0 <= s.
Proof.
  induction 1 as [| n r Hn _ IH]; simpl.
  - intros [= <- <- <-]; lia.
  - destruct (match_node n) as [[[p' f'] s']|] eqn:E; [| exact IH].
    intros [= <- <- <-]. eapply match_node_no_negative; eauto.
Qed.

(** ** Count normalisation: claims *)

(** C2 (counterexample): the triple is not always non-negative; a negative
    [passedTests] is read directly, [{"passedTests": -1, "failedTests": 0}]
    normalises to (-1, 0, 0). *)
Lemma extract_counts_negative_cex :
  extract_counts (JObj [("passedTests", JInt (-1)); ("failedTests", JInt 0)])
  = (-1, 0, 0).
Proof. reflexivity. Qed.

(** C2 (amended): when no number (nor numeric string) anywhere in the
    document is negative, the three counts of [extract_counts] are
    non-negative integers. *)
Theorem extract_counts_nonneg_of_no_negative (d : json) :
  no_negative d = true ->
  let '(p, f, s) := extract_counts d in 0 <= p /\ 0 <= f /\ 0 <= s.
Proof.
  intros Hd. destruct (extract_counts d) as [[p f] s] eqn:E.
  eapply first_match_no_negative; [| exact E].
  apply Forall_forall. intros n Hn k v Hin.
  eapply deep_iter_no_negative; eauto.
Qed.

Lemma extract_counts_nonneg_of_no_negative_witness :
  no_negative (JObj [("totalTestCount", JInt 3); ("failedTests", JInt 5)]) = true /\
  (let '(p, f, s) :=
     extract_counts (JObj [("totalTestCount", JInt 3); ("failedTests", JInt 5)]) in
   0 <= p /\ 0 <= f /\ 0 <= s).
Proof.
  split; [reflexivity |].
  apply extract_counts_nonneg_of_no_negative. reflexivity.
Defined.

(** C3: for a node with [totalTestCount] and [failedTests] or
    [testsFailedCount], reached before any node on which a pattern succeeds
    and on which pattern 1 does not succeed, with its fields coerced to [t],
    [f] and [s] ([failedTests] else [testsFailedCount]; [skippedTests] else
    [testsSkippedCount]; 0 when absent), normalisation returns
    (max (t - f - s) 0, f, s), whose passed count is non-negative. *)
Theorem extract_counts_total_pattern (d : json) (pre post : list dict) (n : dict)
    (t f s : Z) :
  deep_iter d = (pre ++ n :: post)%list ->
  Forall (fun m => match_node m = None) pre ->
  has_key n "totalTestCount" = true ->
  has_key n "failedTests" || has_key n "testsFailedCount" = true ->
  pattern_summary n = None ->
  coerce (get n "totalTestCount" (JInt 0)) = Some t ->
  coerce (get n "failedTests" (get n "testsFailedCount" (JInt 0))) = Some f ->
  coerce (get n "skippedTests" (get n "testsSkippedCount" (JInt 0))) = Some s ->
  extract_counts d = (Z.max (t - f - s) 0, f, s) /\ 0 <= Z.max (t - f - s) 0.
Proof.
  intros Hd Hpre Ht Hf H1 Et Ef Es. split; [| lia].
  unfold extract_counts. rewrite Hd. apply first_match_app; [exact Hpre |].
  unfold match_node. rewrite H1. unfold pattern_total.
  rewrite Ht, Hf. simpl. now rewrite Et, Ef, Es.
Qed.

Lemma extract_counts_total_pattern_witness :
  extract_counts (JObj [("totalTestCount", JInt 100); ("failedTests", JInt 5)])
  = (95, 5, 0).
Proof.
  destruct (extract_counts_total_pattern
              (JObj [("totalTestCount", JInt 100); ("failedTests", JInt 5)]) [] []
              [("totalTestCount", JInt 100); ("failedTests", JInt 5)] 100 5 0
              eq_refl (Forall_nil _) eq_refl eq_refl eq_refl eq_refl eq_refl eq_refl)
    as [H _].
  exact H.
Defined.

(** C4: when the first node of the traversal on which a pattern succeeds has
    [passedTests] and [failedTests] and their fields coerce, after
    [_value]-unwrapping, to [p], [f] and [s] ([skippedTests], 0 when
    absent), normalisation returns (p, f, s); a count wrapped as
    [{"_value": N}] coerces to N. *)
Theorem extract_counts_summary_pattern (d : json) (pre post : list dict) (n : dict)
    (p f s : Z) :
  deep_iter d = (pre ++ n :: post)%list ->
  Forall (fun m => match_node m = None) pre ->
  has_key n "passedTests" = true ->
  has_key n "failedTests" = true ->
  coerce (get n "passedTests" (JInt 0)) = Some p ->
  coerce (get n "failedTests" (JInt 0)) = Some f ->
  coerce (get n "skippedTests" (JInt 0)) = Some s ->
  extract_counts d = (p, f, s) /\
  (forall N : Z, coerce (JObj [("_value", JInt N)]) = Some N).
Proof.
  intros Hd Hpre Hp Hf Ep Ef Es. split.
  - unfold extract_counts. rewrite Hd. apply first_match_app; [exact Hpre |].
    unfold match_node, pattern_summary, direct_pattern.
    rewrite Hp, Hf. simpl. now rewrite Ep, Ef, Es.
  - intros N. unfold coerce; simpl. now destruct N.
Qed.

Lemma extract_counts_summary_pattern_witness :
  extract_counts (JObj [("passedTests", JInt 10); ("failedTests", JInt 2);
                        ("skippedTests", JInt 1)]) = (10, 2, 1).
Proof.
  destruct (extract_counts_summary_pattern
              (JObj [("passedTests", JInt 10); ("failedTests", JInt 2);
                     ("skippedTests", JInt 1)]) [] []
              [("passedTests", JInt 10); ("failedTests", JInt 2);
               ("skippedTests", JInt 1)] 10 2 1
              eq_refl (Forall_nil _) eq_refl eq_refl eq_refl eq_refl eq_refl)
    as [H _].
  exact H.
Defined.

(** C5: when no node of the traversal has the key set of any of the five
    patterns (the empty object included), normalisation returns (0, 0, 0);
    [extract_counts] is total, so it does not raise. *)
Theorem extract_counts_no_pattern (d : json) :
  Forall (fun n => keys_match n = false) (deep_iter d) ->
  extract_counts d = (0, 0, 0).
Proof.
  intros H. unfold extract_counts. apply first_match_none.
  eapply Forall_impl; [| exact H]. intros n Hn.
  unfold keys_match in Hn. rewrite !orb_false_iff in Hn.
  destruct Hn as [[[[H1 H2] H3] H4] H5].
  unfold match_node, pattern_summary, pattern_total, pattern_a, pattern_b,
    pattern_alt, direct_pattern.
  now rewrite H1, H2, H3, H4, H5.
Qed.

Lemma extract_counts_no_pattern_witness :
  extract_counts (JObj []) = (0, 0, 0) /\
  extract_counts (JObj [("metrics", JArr [JObj [("passedTests", JInt 4)]])])
  = (0, 0, 0).
Proof.
  split; apply extract_counts_no_pattern; repeat constructor.
Defined.

(** [coerce] raises exactly on a truthy unwrapped value [int()] rejects. *)
Lemma coerce_none_iff (v : json) :
  coerce v = None <-> truthy (unwrap v) = true /\ py_int (unwrap v) = None.
Proof.
  unfold coerce. destruct (truthy (unwrap v)); split; intros H;
    try easy; now destruct H.
Qed.

(** C10: in count normalisation a field whose unwrapped value is falsy
    (None, '', false, 0, an empty list or dict) coerces to 0; on a node with
    [passedTests] and [failedTests] pattern 1 is skipped exactly when one of
    its three fields is truthy and not accepted by [int()]. *)
Theorem coerce_falsy_and_pattern_skip (n : dict) :
  has_key n "passedTests" = true ->
  has_key n "failedTests" = true ->
  (forall v : json, truthy (unwrap v) = false -> coerce v = Some 0) /\
  (pattern_summary n = None <->
   Exists (fun k => truthy (unwrap (get n k (JInt 0))) = true /\
                    py_int (unwrap (get n k (JInt 0))) = None)
          ["passedTests"; "failedTests"; "skippedTests"]).
Proof.
  intros Hp Hf. split.
  - intros v Hv. unfold coerce. now rewrite Hv.
  - unfold pattern_summary, direct_pattern. rewrite Hp, Hf. simpl.
    rewrite !Exists_cons, Exists_nil, <- !coerce_none_iff.
    destruct (coerce (get n "passedTests" (JInt 0)));
    destruct (coerce (get n "failedTests" (JInt 0)));
    destruct (coerce (get n "skippedTests" (JInt 0)));
    intuition discriminate.
Qed.

Lemma coerce_falsy_and_pattern_skip_witness :
  coerce JNull = Some 0 /\
  pattern_summary [("passedTests", JNull); ("failedTests", JInt 2)] <> None /\
  extract_counts (JObj [("passedTests", JNull); ("failedTests", JInt 2)]) = (0, 2, 0).
Proof.
  destruct (coerce_falsy_and_pattern_skip
              [("passedTests", JNull); ("failedTests", JInt 2)] eq_refl eq_refl)
    as [Hz Hskip].
  split; [apply Hz; reflexivity |]. split; [| reflexivity].
  rewrite Hskip. intros H.
  repeat (apply Exists_cons in H as [[H1 H2] | H]; [discriminate |]).
  now apply Exists_nil in H.
Defined.

Example ex_details :
  extract_details py_str_model
    (JObj [("testFailures", JArr [JObj [("testName", JStr "testFoo");
              ("testIdentifierString", JStr "SuiteA/testFoo");
              ("failureText", JStr "expected true")]])])
  = Ok (Some [{| d_name := JStr "testFoo"; d_status := JStr "Failed";
                 d_suite := JStr "SuiteA"; d_failure := JStr "expected true";
                 d_test_id := JStr "SuiteA/testFoo" |}]).
Proof. reflexivity. Qed.

(** ** Lemmas on detail extraction *)

Definition str_like (v : json) : bool :=
  match v with JNull | JStr _ => true | _ => false end.

Lemma field_ok_str_like (f : dict) (k : string) :
  field_ok f k = true -> str_like (get f k JNull) = true.
Proof.
  unfold field_ok, get. destruct (lookup k f) as [[]|]; easy.
Qed.

Lemma truthy_str_like (a : json) :
  str_like a = true -> truthy a = negb (String.eqb (sval a) EmptyString).
Proof. destruct a; easy. Qed.

Lemma py_or_str_like (a b : json) :
  str_like a = true -> str_like b = true ->
  str_like (py_or a b) = true /\ sval (py_or a b) = sfirst (sval a) (sval b).
Proof.
  intros Ha Hb. unfold py_or, sfirst. rewrite (truthy_str_like a Ha).
  destruct (String.eqb (sval a) EmptyString); simpl; auto.
Qed.

Lemma py_or_empty (x : json) :
  str_like x = true -> py_or x (JStr EmptyString) = JStr (sval x).
Proof.
  intros Hx. unfold py_or. rewrite (truthy_str_like x Hx).
  destruct x as [| | | | s | |]; try discriminate; simpl; [reflexivity |].
  destruct (String.eqb_spec s EmptyString); simpl; congruence.
Qed.

Lemma split_on_length (c : ascii) (s : string) :
  has_char c s = true -> (2 <= List.length (split_on c s))%nat.
Proof.
  assert (H1 : forall s, (1 <= List.length (split_on c s))%nat).
  { induction s0 as [| x r IH]; simpl; [lia |].
    destruct (Ascii.eqb x c); simpl; [lia |].
    destruct (split_on c r); simpl in *; lia. }
  induction s as [| x r IH]; simpl; [discriminate |].
  destruct (Ascii.eqb x c) eqn:E; simpl.
  - intros _. specialize (H1 r). lia.
  - intros Hr. specialize (IH Hr). destruct (split_on c r); simpl in *; lia.
Qed.

Lemma substring_prefix (n : nat) (s : string) :
  prefix (substring 0 n s) s = true.
Proof.
  revert s. induction n as [| n IH]; intros [| c s]; simpl; auto.
  destruct (ascii_dec c c) as [_ | []]; auto.
Qed.

Lemma substring_length (n : nat) (s : string) :
  String.length (substring 0 n s) = Nat.min n (String.length s).
Proof.
  revert s. induction n as [| n IH]; intros [| c s]; simpl; auto.
Qed.

Lemma excerpt_str (py_str : json -> string) (s : string) :
  excerpt (JStr s) = Ok (JStr (substring 0 100 s)).
Proof.
  unfold excerpt. simpl. destruct (String.eqb_spec s EmptyString); simpl; [subst |]; reflexivity.
Qed.

Section DetailLemmas.
Variable py_str : json -> string.
Hypothesis py_str_string : forall s, py_str (JStr s) = s.

Lemma suite_of_str (id t : string) :
  suite_of py_str (JStr id) (JStr t) =
  JStr (if has_char "/" id && negb (String.eqb (second_to_last_segment id) EmptyString)
        then second_to_last_segment id else t).
Proof.
  unfold suite_of, second_to_last_segment. rewrite py_str_string.
  destruct (has_char "/" id) eqn:Hc.
  - rewrite andb_true_r.
    assert (Hid : truthy (JStr id) = true).
    { simpl. destruct (String.eqb_spec id EmptyString); [subst; discriminate | reflexivity]. }
    rewrite Hid. pose proof (split_on_length "/" id Hc) as Hl.
    apply Nat.leb_le in Hl. rewrite Hl. simpl.
    unfold py_or. simpl.
    destruct (String.eqb (nth _ _ _) EmptyString); reflexivity.
  - rewrite andb_false_r. reflexivity.
Qed.

Lemma detail_of_failure_ok (f : dict) :
  entry_ok (JObj f) = true ->
  exists o, detail_of_failure py_str (JObj f) = Ok o /\
    match o with
    | None => String.eqb (spec_name f) EmptyString = true
    | Some r => String.eqb (spec_name f) EmptyString = false /\ record_spec f r
    end.
Proof.
  simpl. intros H.
  repeat (apply andb_true_iff in H as [? H]).
  repeat match goal with
         | Hk : field_ok f _ = true |- _ => apply field_ok_str_like in Hk
         end.
  unfold detail_of_failure.
  destruct (py_or_str_like _ _ H0 H1) as [Hn1 Hn2].
  destruct (py_or_str_like _ _ H1 H2) as [Hi1 Hi2].
  rewrite (py_or_empty _ Hn1), (py_or_empty _ Hi1), (py_or_empty _ H3),
    (py_or_empty _ H4), excerpt_str by assumption.
  rewrite Hn2, Hi2. simpl truthy.
  fold (str_field f "testName") (str_field f "testIdentifierString")
    (str_field f "testIdentifierURL") (str_field f "targetName")
    (str_field f "failureText").
  fold (spec_name f) (spec_test_id f).
  rewrite suite_of_str.
  destruct (String.eqb (spec_name f) EmptyString) eqn:En; simpl.
  - exists None. auto.
  - eexists. split; [reflexivity |]. split; [reflexivity |].
    unfold record_spec; simpl.
    assert (Eid : py_or (JStr (spec_test_id f)) (JStr EmptyString) = JStr (spec_test_id f))
      by (apply py_or_empty; reflexivity).
    rewrite Eid.
    repeat split. exists (substring 0 100 (str_field f "failureText")).
    split; [reflexivity |]. split; [apply substring_prefix | apply substring_length].
Qed.

Lemma details_loop_ok (l : list json) :
  Forall (fun e => entry_ok e = true) l ->
  exists recs, details_loop py_str l = Ok recs /\
               Forall2 record_spec (named_entries l) recs.
Proof.
  induction 1 as [| e r He _ IH]; simpl.
  - exists []. auto.
  - destruct IH as [recs [Hr Hf]].
    destruct e as [| | | | | | f];
      try (exists recs; simpl; rewrite Hr; auto; fail).
    destruct (detail_of_failure_ok f He) as [[d|] [Ho Hspec]]; rewrite Ho, Hr.
    + destruct Hspec as [En Hd]. rewrite En. exists (d :: recs). auto.
    + rewrite Hspec. exists recs. auto.
Qed.
End DetailLemmas.

(** ** Detail extraction: claim *)

(** C6 (counterexample): with [testIdentifierString] "/testFoo" the
    second-to-last segment is empty but the record's suite is the target name
    ([suite or target]). *)
Lemma extract_details_empty_segment_cex :
  second_to_last_segment "/testFoo" = EmptyString /\
  extract_details py_str_model
    (JObj [("testFailures", JArr [JObj [("testName", JStr "testFoo");
              ("testIdentifierString", JStr "/testFoo");
              ("targetName", JStr "AppTests")]])])
  = Ok (Some [{| d_name := JStr "testFoo"; d_status := JStr "Failed";
                 d_suite := JStr "AppTests"; d_failure := JStr EmptyString;
                 d_test_id := JStr "/testFoo" |}]).
Proof. split; reflexivity. Qed.

(** C6 (amended): when the top-level [testFailures] is a list whose dict
    entries have string (or absent, or null) fields, detail extraction does
    not raise and yields, in order, one record per dict entry with a
    non-empty test name ([testName], else [testIdentifierString]): status
    Failed, suite the second-to-last [/]-segment of the identifier
    ([testIdentifierString], else [testIdentifierURL]) when it has a slash
    and that segment is non-empty, else the target name; failure excerpt the
    first min(100, length) characters of [failureText]; no records gives
    None. *)
Theorem extract_details_records (py_str : json -> string)
    (py_str_string : forall s, py_str (JStr s) = s)
    (kvs : dict) (entries : list json) :
  lookup "testFailures" kvs = Some (JArr entries) ->
  Forall (fun e => entry_ok e = true) entries ->
  exists recs,
    extract_details py_str (JObj kvs) =
      Ok (match recs with [] => None | _ => Some recs end) /\
    Forall2 record_spec (named_entries entries) recs.
Proof.
  intros Hl He. destruct (details_loop_ok py_str py_str_string entries He)
    as [recs [Hr Hf]].
  exists recs. split; [| exact Hf].
  unfold extract_details. rewrite Hl, Hr. now destruct recs.
Qed.

Lemma extract_details_records_witness :
  exists recs,
    extract_details py_str_model
      (JObj [("testFailures", JArr [JObj [("testName", JStr "testFoo");
                ("testIdentifierString", JStr "SuiteA/testFoo");
                ("failureText", JStr "expected true")]])]) =
      Ok (match recs with [] => None | _ => Some recs end) /\
    Forall2 record_spec
      (named_entries [JObj [("testName", JStr "testFoo");
                ("testIdentifierString", JStr "SuiteA/testFoo");
                ("failureText", JStr "expected true")]]) recs.
Proof.
  apply extract_details_records.
  - intros s. reflexivity.
  - reflexivity.
  - repeat constructor.
Defined.


(** ** Lemmas on strings and on the rendering *)

Lemma string_app_assoc (a b c : string) : (a ++ b) ++ c = a ++ b ++ c.
Proof. induction a as [| x a IH]; simpl; congruence. Qed.

Lemma string_app_nil_r (a : string) : a ++ EmptyString = a.
Proof. induction a as [| x a IH]; simpl; congruence. Qed.

Lemma list_ascii_of_string_app (a b : string) :
  list_ascii_of_string (a ++ b) = (list_ascii_of_string a ++ list_ascii_of_string b)%list.
Proof. induction a as [| x a IH]; simpl; congruence. Qed.

Lemma strip_prefix_app (p l : list ascii) : strip_prefix p (p ++ l)%list = Some l.
Proof.
  induction p as [| c p IH]; simpl; [reflexivity |].
  now rewrite Ascii.eqb_refl.
Qed.

Lemma take_until_app (c : ascii) (a l : list ascii) :
  forallb (fun d => negb (Ascii.eqb d c)) a = true ->
  take_until c (a ++ c :: l)%list = a.
Proof.
  induction a as [| d a IH]; simpl.
  - now rewrite Ascii.eqb_refl.
  - intros H. apply andb_true_iff in H as [Hd Ha].
    apply negb_true_iff in Hd. rewrite Hd. now rewrite IH.
Qed.

(** The characters of [str(n)]: digits and a minus sign. *)
Definition numeral_char (c : ascii) : bool :=
  Ascii.eqb c "-" || (Nat.leb 48 (nat_of_ascii c) && Nat.leb (nat_of_ascii c) 57).

Lemma str_int_numeral (z : Z) :
  forallb numeral_char (list_ascii_of_string (str_int z)) = true.
Proof.
  unfold str_int. destruct (Z.to_int z) as [d | d]; simpl;
    induction d; simpl; auto.
Qed.

Lemma numeral_forallb (c : ascii) (l : list ascii) :
  numeral_char c = false ->
  forallb numeral_char l = true -> forallb (fun d => negb (Ascii.eqb d c)) l = true.
Proof.
  intros Hc. induction l as [| d l IH]; simpl; [reflexivity |].
  rewrite !andb_true_iff. intros [Hd Hl]. split; [| auto].
  destruct (Ascii.eqb_spec d c); [subst; congruence | reflexivity].
Qed.

Lemma has_char_false (c : ascii) (s : string) :
  forallb (fun d => negb (Ascii.eqb d c)) (list_ascii_of_string s) = true ->
  has_char c s = false.
Proof.
  induction s as [| x s IH]; simpl; [reflexivity |].
  rewrite andb_true_iff. intros [Hx Hs]. apply negb_true_iff in Hx.
  rewrite Hx. simpl. auto.
Qed.

Lemma split_on_no_sep (c : ascii) (a : string) :
  has_char c a = false -> split_on c a = [a].
Proof.
  induction a as [| x a IH]; simpl; [reflexivity |].
  rewrite orb_false_iff. intros [Hx Ha]. rewrite Hx, IH by exact Ha. reflexivity.
Qed.

Lemma split_on_app_sep (c : ascii) (a b : string) :
  has_char c a = false -> split_on c (a ++ String c b) = a :: split_on c b.
Proof.
  induction a as [| x a IH]; simpl.
  - now rewrite Ascii.eqb_refl.
  - rewrite orb_false_iff. intros [Hx Ha]. rewrite Hx, IH by exact Ha. reflexivity.
Qed.

Lemma parse_int_str_int (z : Z) : parse_int (str_int z) = Some z.
Proof.
  unfold parse_int, str_int. rewrite NilEmpty.isi. simpl. now rewrite DecimalZ.of_to.
Qed.

Lemma str_int_no_char (c : ascii) (z : Z) :
  numeral_char c = false -> has_char c (str_int z) = false.
Proof.
  intros Hc. apply has_char_false, numeral_forallb; [exact Hc | apply str_int_numeral].
Qed.

Lemma take_until_app_nosep (c : ascii) (a l : list ascii) :
  forallb (fun d => negb (Ascii.eqb d c)) a = true ->
  take_until c (a ++ l)%list = (a ++ take_until c l)%list.
Proof.
  induction a as [| d a IH]; simpl; [reflexivity |].
  intros H. apply andb_true_iff in H as [Hd Ha].
  apply negb_true_iff in Hd. rewrite Hd. now rewrite IH.
Qed.

Lemma forallb_rev {A : Type} (g : A -> bool) (l : list A) :
  forallb g (rev l) = forallb g l.
Proof.
  induction l as [| x l IH]; simpl; [reflexivity |].
  rewrite forallb_app, IH. simpl. now rewrite andb_true_r, andb_comm.
Qed.

Lemma str_int_rev_no_bracket (z : Z) :
  forallb (fun d => negb (Ascii.eqb d "[")) (rev (list_ascii_of_string (str_int z)))
  = true.
Proof.
  rewrite forallb_rev. apply numeral_forallb; [reflexivity | apply str_int_numeral].
Qed.

Lemma split_on_cons_app_sep (c x : ascii) (a r : string) :
  has_char c (String x a) = false ->
  split_on c (String x (a ++ String c r)) = String x a :: split_on c r.
Proof. intros H. exact (split_on_app_sep c (String x a) r H). Qed.

Lemma has_char_space_str_int (z : Z) : has_char "," (String " " (str_int z)) = false.
Proof. simpl. apply str_int_no_char. reflexivity. Qed.

Lemma split_on_numerals (p f s : Z) :
  split_on "," (str_int p ++ tail_1 ++ str_int f ++ tail_2 ++ str_int s) =
  [str_int p; String " " (str_int f); String " " (str_int s)].
Proof.
  change tail_1 with (String "," (String " " EmptyString)).
  change tail_2 with (String "," (String " " EmptyString)).
  cbn [append].
  rewrite split_on_app_sep by (apply str_int_no_char; reflexivity).
  rewrite split_on_cons_app_sep by apply has_char_space_str_int.
  now rewrite split_on_no_sep by apply has_char_space_str_int.
Qed.

Lemma reparse_chart_trailer (X : string) (p f s : Z) :
  reparse_chart (X ++ html_trailer p f s) = Some (p, f, s).
Proof.
  unfold reparse_chart, html_trailer.
  rewrite !list_ascii_of_string_app, !rev_app_distr, <- !app_assoc,
    strip_prefix_app.
  rewrite !take_until_app_nosep by (apply str_int_rev_no_bracket || reflexivity).
  simpl (take_until _ (rev (list_ascii_of_string tail_0) ++ _)%list).
  rewrite app_nil_r, <- !rev_app_distr, rev_involutive,
    <- !list_ascii_of_string_app, string_of_list_ascii_of_string.
  rewrite !string_app_assoc, split_on_numerals. simpl drop_space.
  now rewrite !parse_int_str_int.
Qed.

Lemma occurs_in_trans (a b c : string) :
  occurs_in a b -> occurs_in b c -> occurs_in a c.
Proof.
  intros [x [y ->]] [x' [y' ->]]. exists (x' ++ x), (y ++ y').
  now rewrite !string_app_assoc.
Qed.

Lemma Ok_inj {A : Type} (a b : A) : Ok a = Ok b -> a = b.
Proof. congruence. Qed.

Lemma occurs_in_prefix (a b c : string) : c = a ++ b -> occurs_in a c.
Proof. intros ->. exists EmptyString, b. reflexivity. Qed.

(** The first cells of a row: name and suite as [str()] renders them. *)
Definition row_cells (py_str : json -> string) (item : detail) : string :=
  row_0 ++ py_str (d_name item) ++ row_1 ++ py_str (d_suite item) ++ row_2.

Definition failure_cell (py_str : json -> string) (item : detail) : string :=
  row_failure_0 ++ py_str (d_failure item) ++ row_failure_1.

Lemma render_item_cells (py_str : json -> string) (hf hs : bool) (dir : string)
    (m : screenshot_index) (item : detail) (r : string) :
  render_item py_str hf hs dir m item = Ok r ->
  occurs_in (row_cells py_str item) r /\
  (hf = true -> occurs_in (failure_cell py_str item) r).
Proof.
  unfold render_item, row_cells, failure_cell.
  set (row := row_0 ++ _).
  assert (Hrow : occurs_in (row_0 ++ py_str (d_name item) ++ row_1
                            ++ py_str (d_suite item) ++ row_2) row /\
                 (hf = true -> occurs_in (row_failure_0 ++ py_str (d_failure item)
                                          ++ row_failure_1) row)).
  { subst row. split.
    - eapply occurs_in_prefix. rewrite !string_app_assoc. reflexivity.
    - intros ->. exists (row_0 ++ py_str (d_name item) ++ row_1 ++ py_str (d_suite item)
                    ++ row_2 ++ status_color (d_status item) ++ row_3
                    ++ py_str (d_status item) ++ row_4), row_close.
      rewrite !string_app_assoc. reflexivity. }
  assert (Hext : forall t, occurs_in row (row ++ t)).
  { intros t. exists EmptyString, t. reflexivity. }
  destruct hs.
  - destruct (d_test_id item) as [| | | | tid | |]; try (intros Hr; discriminate Hr).
    intros Hr. apply Ok_inj in Hr. subst r. destruct Hrow as [H1 H2].
    split; [| intros Hf]; eapply occurs_in_trans; eauto.
  - intros Hr. apply Ok_inj in Hr. subst r. exact Hrow.
Qed.

Lemma render_items_in (py_str : json -> string) (hf hs : bool) (dir : string)
    (m : screenshot_index) (items : list detail) (rows : string) (item : detail) :
  render_items py_str hf hs dir m items = Ok rows -> In item items ->
  exists r, render_item py_str hf hs dir m item = Ok r /\ occurs_in r rows.
Proof.
  revert rows. induction items as [| it items IH]; intros rows; simpl; [easy |].
  destruct (render_item py_str hf hs dir m it) as [a|] eqn:Ea; [| discriminate].
  destruct (render_items py_str hf hs dir m items) as [b|] eqn:Eb; [| discriminate].
  intros [= <-] [-> | Hin].
  - exists a. split; [exact Ea |]. exists EmptyString, b. reflexivity.
  - destruct (IH b eq_refl Hin) as [r [Hr Hocc]]. exists r. split; [exact Hr |].
    eapply occurs_in_trans; [exact Hocc |]. exists a, EmptyString.
    now rewrite string_app_nil_r.
Qed.

Lemma occurs_in_refl (a : string) : occurs_in a a.
Proof. exists EmptyString, EmptyString. now rewrite string_app_nil_r. Qed.

Lemma occurs_in_app_l (a b c : string) : occurs_in a b -> occurs_in a (b ++ c).
Proof.
  intros [x [y ->]]. exists x, (y ++ c). now rewrite !string_app_assoc.
Qed.

Lemma occurs_in_app_r (a b c : string) : occurs_in a c -> occurs_in a (b ++ c).
Proof.
  intros [x [y ->]]. exists (b ++ x), y. now rewrite !string_app_assoc.
Qed.

(** Finds [a] among the pieces of a concatenation. *)
Ltac solve_occurs :=
  first [ apply occurs_in_refl
        | apply occurs_in_app_l; solve_occurs
        | apply occurs_in_app_r; solve_occurs ].

Ltac destruct_result :=
  match goal with
  | |- context [match ?x with Ok _ => _ | Raise _ => _ end] =>
      let E := fresh "E" in destruct x eqn:E
  end.

(** ** Report rendering: claims *)

(** C1 (counterexample): a test named [<b>x</b>] is embedded raw; the
    escaped form [&lt;b&gt;x&lt;/b&gt;] does not occur in the report. *)
Lemma build_html_raw_name_cex :
  match build_html py_str_model 0 1 0 "run.xcresult" "XCTest Summary"
          (Some [{| d_name := JStr "<b>x</b>"; d_status := JStr "Failed";
                    d_suite := JStr "S&T"; d_failure := JStr "a < b";
                    d_test_id := JStr "S&T/<b>x</b>" |}]) None None with
  | Ok out =>
      str_contains "<td style=`border-bottom:1px solid #404040; padding:4px 6px;`><b>x</b></td>" out = false /\
      str_contains (qq "<td style=`border-bottom:1px solid #404040; padding:4px 6px;`><b>x</b></td>") out = true /\
      str_contains "&lt;b&gt;x&lt;/b&gt;" out = false /\
      str_contains "&amp;" out = false
  | Raise _ => False
  end.
Proof. vm_compute. repeat split. Qed.

(** C1 (amended): [build_html] embeds each detail record's name, suite and
    failure excerpt as [str()] renders them, without HTML-escaping: the
    row's name and suite cells, and its failure cell when the record has a
    failure, occur verbatim in the produced document. *)
Theorem build_html_embeds_verbatim (py_str : json -> string) (p f s : Z)
    (source_name title : string) (ds : list detail) (dir : option string)
    (m : option screenshot_index) (out : string) (item : detail) :
  build_html py_str p f s source_name title (Some ds) dir m = Ok out ->
  In item ds ->
  occurs_in (row_cells py_str item) out /\
  (truthy (d_failure item) = true -> occurs_in (failure_cell py_str item) out).
Proof.
  intros Hout Hin. destruct ds as [| it ds']; [contradiction |].
  unfold build_html in Hout. cbv zeta in Hout.
  set (hf := existsb _ _) in Hout.
  destruct (render_items py_str hf _ _ _ (it :: ds')) as [rows|e] eqn:Er;
    [| discriminate].
  apply Ok_inj in Hout. subst out.
  destruct (render_items_in _ _ _ _ _ _ _ _ Er Hin) as [r [Hr Hocc]].
  apply render_item_cells in Hr as [H1 H2].
  split.
  - eapply occurs_in_trans; [exact H1 |].
    eapply occurs_in_trans; [exact Hocc |]. solve_occurs.
  - intros Hf. eapply occurs_in_trans.
    + apply H2. subst hf. apply existsb_exists. exists item. auto.
    + eapply occurs_in_trans; [exact Hocc |]. solve_occurs.
Qed.

Lemma build_html_embeds_verbatim_witness :
  match build_html py_str_model 0 1 0 "run.xcresult" "XCTest Summary"
          (Some [{| d_name := JStr "<b>x</b>"; d_status := JStr "Failed";
                    d_suite := JStr "S&T"; d_failure := JStr "a < b";
                    d_test_id := JStr "S&T/<b>x</b>" |}]) None None with
  | Ok out =>
      occurs_in (row_cells py_str_model
                   {| d_name := JStr "<b>x</b>"; d_status := JStr "Failed";
                      d_suite := JStr "S&T"; d_failure := JStr "a < b";
                      d_test_id := JStr "S&T/<b>x</b>" |}) out
  | Raise _ => False
  end.
Proof.
  destruct_result.
  - eapply (build_html_embeds_verbatim py_str_model 0 1 0 "run.xcresult"
              "XCTest Summary" _ None None); [exact E | left; reflexivity].
  - vm_compute in E. discriminate E.
Defined.

(** C8: whatever the details and screenshots, a report [build_html]
    produces gives back the counts it was given: the chart's data array
    reads back as (passed, failed, skipped), the KPI cells of the three
    counts occur in the document, and each numeral reads back as its
    count. *)
Theorem build_html_counts_roundtrip (py_str : json -> string) (p f s : Z)
    (source_name title : string) (details : option (list detail))
    (dir : option string) (m : option screenshot_index) (out : string) :
  build_html py_str p f s source_name title details dir m = Ok out ->
  reparse_chart out = Some (p, f, s) /\
  occurs_in (html_kpis p f s) out /\
  parse_int (str_int p) = Some p /\ parse_int (str_int f) = Some f /\
  parse_int (str_int s) = Some s.
Proof.
  unfold build_html. destruct_result; intros Hout; [| discriminate Hout].
  apply Ok_inj in Hout. subst out.
  rewrite !parse_int_str_int. split; [| split; [| auto]].
  - rewrite <- string_app_assoc. apply reparse_chart_trailer.
  - apply occurs_in_app_l. unfold html_header, html_kpis.
    exists (head_0 ++ title ++ head_1 ++ title ++ head_2 ++ str_int (p + f + s)),
           (source_name ++ head_7).
    now rewrite !string_app_assoc.
Qed.

Lemma build_html_counts_roundtrip_witness :
  match build_html py_str_model 10 2 1 "run.xcresult" "XCTest Summary"
          (Some [{| d_name := JStr "testFoo"; d_status := JStr "Failed";
                    d_suite := JStr "SuiteA"; d_failure := JStr "expected true";
                    d_test_id := JStr "SuiteA/testFoo" |}])
          (Some "run_screenshots") (Some [("SuiteA/testFoo", ["a.png"])]) with
  | Ok out => reparse_chart out = Some (10, 2, 1)
  | Raise _ => False
  end.
Proof.
  destruct_result.
  - exact (proj1 (build_html_counts_roundtrip py_str_model 10 2 1 "run.xcresult"
                    "XCTest Summary" _ _ _ _ E)).
  - vm_compute in E. discriminate E.
Defined.

(** C9 (counterexample): for identifier [A/t] and an index whose first key
    [B/t] only shares the last segment and whose second key [Suite.A/t]
    contains the identifier, the first key's screenshots are chosen. *)
Lemma select_screenshots_order_cex :
  index_get "A/t" [("B/t", ["seg.png"]); ("Suite.A/t", ["sfx.png"])] = None /\
  str_contains "A/t" "B/t" = false /\ str_endswith "B/t" "A/t" = false /\
  str_contains "A/t" "Suite.A/t" = true /\
  select_screenshots "A/t" [("B/t", ["seg.png"]); ("Suite.A/t", ["sfx.png"])]
  = ["seg.png"].
Proof. vm_compute. repeat split. Qed.

(** C9 (amended): the screenshots of a row are the index entry of the exact
    identifier when it is a non-empty list; otherwise those of the first key
    in index order on which one disjunction holds (the identifier occurs in
    the key, or the key ends with it, or the identifier is non-empty and
    their last [/]-segments are equal); otherwise none. *)
Theorem select_screenshots_exact_then_first_key (test_id : string)
    (m : screenshot_index) :
  select_screenshots test_id m =
  match index_get test_id m with
  | Some ((_ :: _) as imgs) => imgs
  | _ =>
      match find (fun kv => key_matches test_id (fst kv)) m with
      | Some (_, v) => v
      | None => []
      end
  end.
Proof.
  assert (Hf : fallback_lookup test_id m =
               option_map snd (find (fun kv => key_matches test_id (fst kv)) m)).
  { induction m as [| [k v] r IH]; simpl; [reflexivity |].
    destruct (key_matches test_id k); [reflexivity | exact IH]. }
  unfold select_screenshots. rewrite Hf.
  destruct (index_get test_id m) as [[| i is] |] eqn:E;
    destruct (find _ m) as [[k v] |]; reflexivity.
Qed.

(** ** The pipeline: claim *)

Lemma run_candidates_no_text (E : env) (cands : list (list string))
    (le lc : string) :
  (forall c, In c cands -> yields_text (run E c) = false /\ run_raised (run E c) = false) ->
  exists err cmd,
    run_candidates E cands le lc = Ok (None, err, cmd) /\
    ((cands = [] /\ cmd = lc) \/ exists c, In c cands /\ cmd = cmd_text c) /\
    (err = le \/ exists c, In c cands /\ err = captured_stderr c (run E c)).
Proof.
  revert le lc. induction cands as [| c r IH]; intros le lc H.
  - exists le, lc. simpl. auto.
  - simpl. destruct (H c (or_introl eq_refl)) as [Hc Hr].
    destruct (run E c) as [exc | t exc | rc out err] eqn:Er.
    + eexists _, _. split; [reflexivity |].
      split; right; exists c; simpl; rewrite ?Er; auto.
    + discriminate Hr.
    + simpl in Hc. rewrite Hc.
      destruct (IH (if String.eqb (str_strip err) EmptyString then le else err)
                   (cmd_text c)) as [err' [cmd' [Hrun [Hcmd Herr]]]].
      { intros c' Hin. apply H. now right. }
      exists err', cmd'. split; [exact Hrun |]. split.
      * right. destruct Hcmd as [[_ ->] | [c' [Hin ->]]].
        -- exists c. auto.
        -- exists c'. auto.
      * destruct Herr as [-> | [c' [Hin ->]]].
        -- destruct (String.eqb (str_strip err) EmptyString); [now left |].
           right. exists c. split; [now left | now rewrite Er].
        -- right. exists c'. auto.
Qed.

Lemma run_xcresulttool_no_text (E : env) (x : string) :
  (forall c, In c (candidates E (abspath E x)) ->
     yields_text (run E c) = false /\ run_raised (run E c) = false) ->
  exists err c,
    run_xcresulttool E x = Ok (None, err, cmd_text c) /\
    In c (candidates E (abspath E x)) /\
    (err = EmptyString \/
     exists c', In c' (candidates E (abspath E x)) /\ err = captured_stderr c' (run E c')).
Proof.
  intros H. unfold run_xcresulttool.
  destruct (run_candidates_no_text E _ EmptyString EmptyString H)
    as [err [cmd [Hrun [[[Hnil _] | [c [Hin ->]]] Herr]]]].
  - discriminate Hnil.
  - exists err, c. auto.
Qed.

Lemma cmd_text_candidates_nonempty (E : env) (x : string) (c : list string) :
  In c (candidates E x) -> String.eqb (cmd_text c) EmptyString = false.
Proof.
  simpl. intros [<- | [<- | [<- | []]]]; unfold cmd_text; simpl;
    destruct (xcrun_path E); reflexivity.
Qed.

Lemma build_html_no_details (py_str : json -> string) (p f s : Z)
    (source_name title : string) (dir : option string) (m : option screenshot_index) :
  exists html, build_html py_str p f s source_name title None dir m = Ok html.
Proof. eexists. reflexivity. Qed.

Lemma parse_error_not_extraction_error (exc c e : string) :
  parse_error exc <> extraction_error c e.
Proof. unfold parse_error, extraction_error. cbn [append]. intros H. discriminate H. Qed.

Lemma in_log (E : env) (l : string) (ef : file_write) :
  In ef (log E l) -> ef = LogAppend l.
Proof. unfold log. destruct (log_ok E l); simpl; [intros [<- | []]; reflexivity | tauto]. Qed.

Lemma Forall_log (E : env) (l : string) :
  Forall (fun ef => ef = LogAppend l) (log E l).
Proof. apply Forall_forall. intros ef. apply in_log. Qed.

Lemma Forall_app_iff {A : Type} (P : A -> Prop) (l1 l2 : list A) :
  Forall P (l1 ++ l2) <-> Forall P l1 /\ Forall P l2.
Proof. rewrite !Forall_forall. setoid_rewrite in_app_iff. firstorder. Qed.

Ltac classify_in Hin :=
  repeat match type of Hin with
  | In _ (_ ++ _) => apply in_app_iff in Hin; destruct Hin as [Hin | Hin]
  | In _ (log _ _) => apply in_log in Hin
  | In _ (if ?b then _ else _) => destruct b
  | In _ (write_effects _ _ ?r) => destruct r; cbn [write_effects] in Hin
  | In _ (_ :: _) => destruct Hin as [Hin | Hin]
  | In _ [] => destruct Hin
  end.

Ltac solve_forall_logs :=
  repeat (rewrite Forall_app_iff; split);
  first [ apply Forall_log | constructor
        | match goal with |- Forall _ (if ?b then _ else _) => destruct b end;
          first [apply Forall_log | constructor] ].

(** C7 (corrected): for an output path whose [.with_suffix(".json")] does
    not raise, (1) when no command variant yields output text and
    [subprocess.run] raises nothing but [FileNotFoundError], the pipeline
    appends log lines only and raises a RuntimeError whose message is the
    extraction error for the command of an attempted variant and the
    captured stderr (the command, and the stripped stderr when it is not
    blank, occur in it); (2) when [json.loads] raises on the extracted
    text, it raises the JSON-parse error, a message distinct from every
    extraction error, having written log lines and the debug JSON only;
    (3) when the JSON parses, no details are asked for or found, and the
    HTML file can be written, it writes the HTML and returns the counts,
    whatever they are (zero included). *)
Theorem process_xcresult_to_html_outcomes (E : env) (x out log_path debug : string)
    (title : option string) (include_details include_screenshots : bool) :
  with_json_suffix E out = inr debug ->
  ((forall c, In c (candidates E (abspath E x)) ->
      yields_text (run E c) = false /\ run_raised (run E c) = false) ->
   exists c err msg w,
     process_xcresult_to_html E x out log_path title include_details include_screenshots
       = (w, Raise (RuntimeError msg)) /\
     Forall (fun ef => ef = LogAppend log_path) w /\
     In c (candidates E (abspath E x)) /\
     msg = extraction_error (cmd_text c) err /\
     occurs_in ("Command: " ++ cmd_text c) msg /\
     (String.eqb (str_strip err) EmptyString = false ->
      occurs_in ("Error output:" ++ nl ++ str_strip err) msg) /\
     (err = EmptyString \/
      exists c', In c' (candidates E (abspath E x)) /\ err = captured_stderr c' (run E c')))
  /\
  (forall js err cmd exc,
     run_xcresulttool E x = Ok (Some js, err, cmd) ->
     String.eqb js EmptyString = false ->
     json_loads E js = inl exc ->
     exists w,
       process_xcresult_to_html E x out log_path title include_details include_screenshots
         = (w, Raise (RuntimeError (parse_error exc))) /\
       Forall (fun ef => ef = LogAppend log_path \/ exists c, ef = FileWrite debug c) w /\
       (forall c' e', parse_error exc <> extraction_error c' e'))
  /\
  (forall js err cmd data,
     run_xcresulttool E x = Ok (Some js, err, cmd) ->
     String.eqb js EmptyString = false ->
     json_loads E js = inr data ->
     (include_details = false \/ extract_details (py_str_env E) data = Ok None) ->
     (forall h, write_file E out h = Written) ->
     exists w html tail,
       process_xcresult_to_html E x out log_path title include_details include_screenshots
         = ((w ++ FileWrite out html :: tail)%list, Ok (extract_counts data))).
Proof.
  intros Hd. split; [| split].
  - intros H. destruct (run_xcresulttool_no_text E x H) as [err [c [Hr [Hin Herr]]]].
    eexists c, err, (extraction_error (cmd_text c) err), _.
    unfold process_xcresult_to_html. rewrite Hr. cbv beta iota zeta. rewrite Hd.
    cbv beta iota zeta.
    split; [reflexivity |]. split; [rewrite app_nil_r; solve_forall_logs |].
    split; [exact Hin |]. split; [reflexivity |].
    unfold extraction_error. rewrite (cmd_text_candidates_nonempty _ _ _ Hin).
    split; [solve_occurs |]. split; [| exact Herr].
    intros Hne. rewrite Hne. solve_occurs.
  - intros js err cmd exc Hr Hne Hj.
    unfold process_xcresult_to_html. rewrite Hr. cbv beta iota zeta. rewrite Hd.
    cbv beta iota zeta. rewrite Hne, Hj. cbv beta iota zeta.
    eexists. split; [reflexivity |]. split; [| apply parse_error_not_extraction_error].
    apply Forall_forall. intros ef Hin. classify_in Hin; subst;
      first [left; reflexivity | right; eexists; reflexivity].
  - intros js err cmd data Hr Hne Hj Hdet Hw.
    unfold process_xcresult_to_html. rewrite Hr. cbv beta iota zeta. rewrite Hd.
    cbv beta iota zeta. rewrite Hne, Hj. cbv beta iota zeta.
    destruct (extract_counts data) as [[p f] s] eqn:Hc.
    destruct include_details.
    + destruct Hdet as [Hdet | Hdet]; [discriminate Hdet |].
      unfold extract_details_logged. destruct data; rewrite Hdet; cbv beta iota zeta;
        cbn [details_truthy andb];
        destruct (build_html_no_details (py_str_env E) p f s (path_name E x)
                    (match title with
                     | Some t => if String.eqb t EmptyString then "XCTest Summary" else t
                     | None => "XCTest Summary"
                     end) None None) as [html Hh];
        rewrite Hh, Hw; eexists _, _, _; reflexivity.
    + destruct (build_html_no_details (py_str_env E) p f s (path_name E x)
                  (match title with
                   | Some t => if String.eqb t EmptyString then "XCTest Summary" else t
                   | None => "XCTest Summary"
                   end) None None) as [html Hh].
      rewrite Hh, Hw. eexists _, _, _. reflexivity.
Qed.

Lemma process_xcresult_to_html_outcomes_witness :
  (exists msg w,
     process_xcresult_to_html (env_with EmptyString) "run.xcresult" "out.html" "run.log" None
       false false = (w, Raise (RuntimeError msg))) /\
  (exists w,
     process_xcresult_to_html (env_with "not json") "run.xcresult" "out.html" "run.log" None
       false false
     = (w, Raise (RuntimeError (parse_error "Expecting value: line 1 column 1 (char 0)")))) /\
  (exists w html tail,
     process_xcresult_to_html (env_with "{}") "run.xcresult" "out.html" "run.log" None
       true false = ((w ++ FileWrite "out.html" html :: tail)%list, Ok (0, 0, 0))).
Proof.
  split; [| split].
  - destruct (proj1 (process_xcresult_to_html_outcomes (env_with EmptyString)
                       "run.xcresult" "out.html" "run.log" "out.json" None false false
                       eq_refl))
      as [c [err [msg [w [H _]]]]].
    + intros c Hin. simpl in Hin.
      destruct Hin as [<- | [<- | [<- | []]]]; split; reflexivity.
    + exists msg, w. exact H.
  - edestruct (proj1 (proj2 (process_xcresult_to_html_outcomes (env_with "not json")
                               "run.xcresult" "out.html" "run.log" "out.json" None false false
                               eq_refl)))
      as [w [H _]]; [reflexivity | reflexivity | reflexivity |].
    exists w. exact H.
  - edestruct (proj2 (proj2 (process_xcresult_to_html_outcomes (env_with "{}")
                               "run.xcresult" "out.html" "run.log" "out.json" None true false
                               eq_refl)))
      as [w [html [tail H]]]; [reflexivity | reflexivity | reflexivity | right; reflexivity
                               | intros h; reflexivity |].
    exists w, html, tail. exact H.
Defined.

(** C7, counterexample: with an output path whose name is empty, such as
    [.], and no variant yielding text, the pipeline raises the ValueError
    of [Path(".").with_suffix(".json")], not the extraction error. *)
Theorem process_xcresult_to_html_empty_name_cex :
  (forall c, In c (candidates (env_with EmptyString) (abspath (env_with EmptyString) "run.xcresult")) ->
     yields_text (run (env_with EmptyString) c) = false /\
     run_raised (run (env_with EmptyString) c) = false) /\
  process_xcresult_to_html (env_with EmptyString) "run.xcresult" "." "run.log" None false false
  = ([LogAppend "run.log"; LogAppend "run.log"; LogAppend "run.log"; LogAppend "run.log"],
     Raise (PyExc "ValueError" "PosixPath('.') has an empty name")).
Proof.
  split.
  - intros c Hin. simpl in Hin. destruct Hin as [<- | [<- | [<- | []]]]; split; reflexivity.
  - vm_compute. reflexivity.
Qed.

(** * Further properties of the code *)

Ltac destr_in H :=
  match type of H with
  | context [match ?x with _ => _ end] => let E := fresh "Em" in destruct x eqn:E
  end.

Ltac destr_goal :=
  match goal with
  | |- context [match ?x with _ => _ end] => let E := fresh "Em" in destruct x eqn:E
  end.

Lemma build_html_reparse (py_str : json -> string) (p f s : Z)
    (source_name title : string) (details : option (list detail))
    (dir : option string) (m : option screenshot_index) (html : string) :
  build_html py_str p f s source_name title details dir m = Ok html ->
  reparse_chart html = Some (p, f, s).
Proof.
  unfold build_html. destruct_result; intros Hout; [| discriminate Hout].
  apply Ok_inj in Hout. subst html.
  rewrite <- string_app_assoc. apply reparse_chart_trailer.
Qed.

(** ** The pipeline *)

Lemma extract_details_logged_in (E : env) (l : string) (data : json)
    (wd : list file_write) (rd : result (option (list detail))) (ef : file_write) :
  extract_details_logged E l data = (wd, rd) -> In ef wd -> ef = LogAppend l.
Proof.
  unfold extract_details_logged. intros H Hin.
  destruct data as [| | | | | | kvs]; try (injection H as <- _; destruct Hin).
  destruct (extract_details (py_str_env E) (JObj kvs)); injection H as <- _;
    [apply in_app_iff in Hin; destruct Hin as [Hin | Hin] |]; eapply in_log; exact Hin.
Qed.

(** The effects a run can have before it gets to the HTML write: log
    lines, the debug JSON and what the screenshot export does. *)
Ltac classify_run Hin :=
  classify_in Hin;
  try match type of Hin with
  | In _ ?l =>
      match goal with
      | Hd : extract_details_logged _ _ _ = (l, _) |- _ =>
          apply (extract_details_logged_in _ _ _ _ _ _ Hd) in Hin
      end
  end.

Ltac solve_pre_html :=
  first [ left; reflexivity
        | right; left; do 2 eexists; split; [first [eassumption | reflexivity] | reflexivity]
        | right; right; split;
          [ match goal with
            | |- ?i = true =>
                match goal with
                | Hb : _ && i = true |- _ => apply andb_prop in Hb; apply Hb
                end
            end
          | first [ cbn [fst]; assumption
                  | match goal with
                    | He : export_attachments _ _ _ _ = _ |- _ => rewrite He; assumption
                    end ] ] ].

(** Case analysis on the innermost match first, so that the effects of each
    stage stay visible in the final trace. *)
Ltac destr_inner H :=
  match type of H with
  | context [match ?x with _ => _ end] =>
      lazymatch x with context [match _ with _ => _ end] => fail | _ => idtac end;
      let E := fresh "Em" in destruct x eqn:E
  end.

Ltac destr_inner_goal :=
  match goal with
  | |- context [match ?x with _ => _ end] =>
      lazymatch x with context [match _ with _ => _ end] => fail | _ => idtac end;
      let E := fresh "Em" in destruct x eqn:E
  end.

Lemma process_ok_last_write (E : env) (x out log_path : string)
    (title : option string) (include_details include_screenshots : bool)
    (w : list file_write) (c : counts) :
  process_xcresult_to_html E x out log_path title include_details include_screenshots
  = (w, Ok c) ->
  exists w0 html tail,
    w = (w0 ++ FileWrite out html :: tail)%list /\
    reparse_chart html = Some c /\
    Forall (fun ef => ef = LogAppend log_path) tail /\
    Forall (fun ef => ef = LogAppend log_path \/
                      (exists d js, with_json_suffix E out = inr d /\ ef = FileWrite d js) \/
                      (include_screenshots = true /\
                       In ef (fst (export_attachments E x out log_path)))) w0.
Proof.
  unfold process_xcresult_to_html. intros H.
  repeat (destr_inner H; try discriminate H).
  all: injection H as <- <-.
  all: eexists _, _, _; split; [reflexivity |].
  all: split; [eapply build_html_reparse; eassumption |].
  all: split; [solve_forall_logs |].
  all: apply Forall_forall; intros ef Hin; classify_run Hin; subst; solve_pre_html.
Qed.

(** [_process_xcresult_to_html]: a run that returns counts has written the
    HTML report in full at [out_html_path], and the chart data of that file
    reads back as the counts returned; after that write it only appends
    lines to the log; before it, it only appended log lines, wrote the
    debug JSON at the [.json] path and did what the screenshot export
    does. *)
Theorem process_success_writes_report (E : env) (x out log_path : string)
    (title : option string) (include_details include_screenshots : bool)
    (w : list file_write) (c : counts) :
  process_xcresult_to_html E x out log_path title include_details include_screenshots
  = (w, Ok c) ->
  exists w0 html tail,
    w = (w0 ++ FileWrite out html :: tail)%list /\
    reparse_chart html = Some c /\
    Forall (fun ef => ef = LogAppend log_path) tail /\
    Forall (fun ef => ef = LogAppend log_path \/
                      (exists d js, with_json_suffix E out = inr d /\ ef = FileWrite d js) \/
                      (include_screenshots = true /\
                       In ef (fst (export_attachments E x out log_path)))) w0.
Proof. apply process_ok_last_write. Qed.

Lemma process_success_writes_report_witness :
  exists w0 html tail,
    fst (process_xcresult_to_html (env_with "{}") "run.xcresult" "out.html" "run.log" None
           false false)
    = (w0 ++ FileWrite "out.html" html :: tail)%list /\
    reparse_chart html = Some (0, 0, 0).
Proof.
  destruct (process_success_writes_report (env_with "{}") "run.xcresult" "out.html" "run.log"
              None false false
              (fst (process_xcresult_to_html (env_with "{}") "run.xcresult" "out.html"
                      "run.log" None false false)) (0, 0, 0))
    as [w0 [html [tail [Hw [Hr _]]]]].
  - vm_compute. reflexivity.
  - exists w0, html, tail. split; [exact Hw | exact Hr].
Defined.

(** [_process_xcresult_to_html]: a run that raises has not written the
    report in full. Either it raised at the HTML write itself, with the
    message [Failed to write HTML file: ...]: the file is then untouched
    (it could not be opened) or holds what was written of the HTML before
    the error (opening it truncated it), and one log line follows; or it
    raised earlier, and it only appended log lines, wrote the debug JSON at
    the [.json] path and did what the screenshot export does. *)
Theorem process_failure_no_report (E : env) (x out log_path : string)
    (title : option string) (include_details include_screenshots : bool)
    (w : list file_write) (e : exn) :
  process_xcresult_to_html E x out log_path title include_details include_screenshots
  = (w, Raise e) ->
  (exists html r w0,
     write_file E out html = r /\ r <> Written /\
     e = RuntimeError ("Failed to write HTML file: " ++ write_err r) /\
     w = (w0 ++ write_effects out html r ++ log E log_path)%list)
  \/
  Forall (fun ef => ef = LogAppend log_path \/
                    (exists d js, with_json_suffix E out = inr d /\ ef = FileWrite d js) \/
                    (include_screenshots = true /\
                     In ef (fst (export_attachments E x out log_path)))) w.
Proof.
  unfold process_xcresult_to_html. intros H.
  repeat (destr_inner H; try discriminate H).
  all: injection H as <- <-.
  all: first
    [ left; eexists _, _, _; split; [eassumption |]; split; [discriminate |];
      split; reflexivity
    | right; apply Forall_forall; intros ef Hin; classify_run Hin; subst; solve_pre_html ].
Qed.

Lemma process_failure_no_report_witness :
  process_xcresult_to_html (env_with "{}") "run.xcresult" "." "run.log" None false false
  = ([LogAppend "run.log"; LogAppend "run.log"; LogAppend "run.log"; LogAppend "run.log"],
     Raise (PyExc "ValueError" "PosixPath('.') has an empty name")) /\
  Forall (fun ef => ef = LogAppend "run.log" \/
                    (exists d js, with_json_suffix (env_with "{}") "." = inr d /\
                                  ef = FileWrite d js) \/
                    (false = true /\
                     In ef (fst (export_attachments (env_with "{}") "run.xcresult" "." "run.log"))))
    [LogAppend "run.log"; LogAppend "run.log"; LogAppend "run.log"; LogAppend "run.log"].
Proof.
  assert (H : process_xcresult_to_html (env_with "{}") "run.xcresult" "." "run.log" None
                false false
              = ([LogAppend "run.log"; LogAppend "run.log"; LogAppend "run.log";
                  LogAppend "run.log"],
                 Raise (PyExc "ValueError" "PosixPath('.') has an empty name")))
    by (vm_compute; reflexivity).
  split; [exact H |].
  destruct (process_failure_no_report (env_with "{}") "run.xcresult" "." "run.log" None
              false false _ _ H) as [[html [r [w0 [_ [_ [He _]]]]]] | Hf];
    [discriminate He | exact Hf].
Defined.

Lemma run_candidates_some (E : env) (cands : list (list string))
    (le lc out err cmd : string) :
  run_candidates E cands le lc = Ok (Some out, err, cmd) ->
  exists pre c post,
    cands = (pre ++ c :: post)%list /\
    Forall (fun c' => exists rc o e', run E c' = Ran rc o e' /\
                                      yields_text (Ran rc o e') = false) pre /\
    run E c = Ran 0 out err /\
    String.eqb (str_strip out) EmptyString = false /\
    cmd = cmd_text c.
Proof.
  revert le lc. induction cands as [| c r IH]; intros le lc H; [discriminate H |].
  simpl in H. destruct (run E c) as [exc | t exc | rc o e'] eqn:Er; [discriminate H | discriminate H |].
  destruct (Z.eqb rc 0 && negb (String.eqb (str_strip o) EmptyString)) eqn:Ey.
  - injection H as <- <- <-. apply andb_prop in Ey as [Hrc Ho].
    apply Z.eqb_eq in Hrc. subst rc. apply negb_true_iff in Ho.
    exists [], c, r. repeat split; auto.
  - destruct (IH _ _ H) as [pre [c' [post [-> [Hpre [Hc [Hs ->]]]]]]].
    exists (c :: pre), c', post. repeat split; auto.
    constructor; [| exact Hpre]. exists rc, o, e'. auto.
Qed.

(** [run_xcresulttool]: the text it returns comes from the first command
    variant, in order, that exits with 0 and a non-blank stdout: every earlier
    variant ran and did not; the stderr and command returned are that
    variant's, and the text returned is never blank. *)
Theorem run_xcresulttool_first_with_text (E : env) (x out err cmd : string) :
  run_xcresulttool E x = Ok (Some out, err, cmd) ->
  exists pre c post,
    candidates E (abspath E x) = (pre ++ c :: post)%list /\
    Forall (fun c' => exists rc o e', run E c' = Ran rc o e' /\
                                      yields_text (Ran rc o e') = false) pre /\
    run E c = Ran 0 out err /\
    String.eqb (str_strip out) EmptyString = false /\
    cmd = cmd_text c.
Proof. unfold run_xcresulttool. apply run_candidates_some. Qed.

Lemma run_xcresulttool_first_with_text_witness :
  exists pre c post,
    candidates (env_of_run legacy_only_run) "/tmp/r.xcresult" = (pre ++ c :: post)%list /\
    List.length pre = 1%nat /\ legacy_only_run c = Ran 0 "{}" EmptyString.
Proof.
  destruct (run_xcresulttool_first_with_text (env_of_run legacy_only_run) "r.xcresult"
              "{}" EmptyString
              (cmd_text (nth 1 (candidates (env_of_run legacy_only_run) "/tmp/r.xcresult") [])))
    as [pre [c [post [Hc [Hpre [Hrun _]]]]]].
  - vm_compute. reflexivity.
  - exists pre, c, post. split; [exact Hc | split; [| exact Hrun]].
    destruct pre as [| a [| b pre]].
    + simpl in Hc. injection Hc as Hc0 _. subst c. vm_compute in Hrun. discriminate Hrun.
    + reflexivity.
    + inversion Hpre as [| ? ? Ha Hpre']. subst. inversion Hpre' as [| ? ? Hb _]. subst.
      simpl in Hc. injection Hc as Ha' Hb' _. subst.
      destruct Hb as [rc [o [e' [Hb Hy]]]]. vm_compute in Hb. injection Hb as <- <- <-.
      vm_compute in Hy. discriminate Hy.
Defined.

Lemma run_candidates_stop (E : env) (pre post : list (list string)) (c : list string)
    (le lc : string) :
  Forall (fun c' => exists rc o e', run E c' = Ran rc o e' /\
                                    yields_text (Ran rc o e') = false) pre ->
  (forall exc, run E c = NotFound exc ->
     run_candidates E (pre ++ c :: post) le lc =
     Ok (None, "Could not execute " ++ hd EmptyString c ++ ": " ++ exc, cmd_text c)) /\
  (forall t exc, run E c = RunRaised t exc ->
     run_candidates E (pre ++ c :: post) le lc = Raise (PyExc t exc)).
Proof.
  revert le lc. induction pre as [| a pre IH]; intros le lc Hpre.
  - split; [intros exc Hc | intros t exc Hc]; simpl; now rewrite Hc.
  - inversion Hpre as [| ? ? [rc [o [e' [Ha Hy]]]] Hpre']. subst. simpl.
    rewrite Ha. simpl in Hy. rewrite Hy. apply IH; assumption.
Qed.

(** [run_xcresulttool]: only [FileNotFoundError] is caught. Once running
    [xcrun] raises it for a variant (every earlier variant having run
    without producing text), no later variant is tried: the result has no
    text, its error is [Could not execute <xcrun>: <exception>] and its
    command that variant's. Any other exception of [subprocess.run] for
    that variant ([PermissionError], [OSError], a decoding error)
    propagates out of [run_xcresulttool] unchanged. *)
Theorem run_xcresulttool_stops_when_not_found (E : env) (x : string)
    (pre post : list (list string)) (c : list string) :
  candidates E (abspath E x) = (pre ++ c :: post)%list ->
  Forall (fun c' => exists rc o e', run E c' = Ran rc o e' /\
                                    yields_text (Ran rc o e') = false) pre ->
  (forall exc, run E c = NotFound exc ->
     run_xcresulttool E x =
     Ok (None, "Could not execute " ++ xcrun_path E ++ ": " ++ exc, cmd_text c)) /\
  (forall t exc, run E c = RunRaised t exc ->
     run_xcresulttool E x = Raise (PyExc t exc)).
Proof.
  intros Hc Hpre. unfold run_xcresulttool. rewrite Hc.
  destruct (run_candidates_stop E pre post c EmptyString EmptyString Hpre) as [H1 H2].
  split; [| exact H2].
  intros exc Hrun. rewrite (H1 exc Hrun).
  assert (Hin : In c (candidates E (abspath E x))).
  { rewrite Hc. apply in_or_app. right. now left. }
  simpl in Hin. destruct Hin as [<- | [<- | [<- | []]]]; reflexivity.
Qed.

Lemma run_xcresulttool_stops_when_not_found_witness :
  run_xcresulttool (env_of_run (fun _ => NotFound "[Errno 2] No such file"))
    "r.xcresult"
  = Ok (None, "Could not execute /usr/bin/xcrun: [Errno 2] No such file",
        cmd_text (hd [] (candidates (env_of_run (fun _ => NotFound "[Errno 2] No such file"))
                          "/tmp/r.xcresult"))) /\
  run_xcresulttool (env_of_run (fun _ => RunRaised "PermissionError" "[Errno 13] Permission denied"))
    "r.xcresult"
  = Raise (PyExc "PermissionError" "[Errno 13] Permission denied").
Proof.
  split.
  - apply (proj1 (run_xcresulttool_stops_when_not_found
                    (env_of_run (fun _ => NotFound "[Errno 2] No such file")) "r.xcresult" []
                    (tl (candidates (env_of_run (fun _ => NotFound "[Errno 2] No such file"))
                           "/tmp/r.xcresult"))
                    (hd [] (candidates (env_of_run (fun _ => NotFound "[Errno 2] No such file"))
                              "/tmp/r.xcresult"))
                    eq_refl (Forall_nil _))).
    reflexivity.
  - apply (proj2 (run_xcresulttool_stops_when_not_found
                    (env_of_run (fun _ => RunRaised "PermissionError" "[Errno 13] Permission denied"))
                    "r.xcresult" []
                    (tl (candidates (env_of_run (fun _ => RunRaised "PermissionError"
                                                   "[Errno 13] Permission denied"))
                           "/tmp/r.xcresult"))
                    (hd [] (candidates (env_of_run (fun _ => RunRaised "PermissionError"
                                                      "[Errno 13] Permission denied"))
                              "/tmp/r.xcresult"))
                    eq_refl (Forall_nil _))).
    reflexivity.
Defined.

(** [_process_xcresult_to_html]: when extraction returned text and the
    output path has a [.json] counterpart, the debug JSON write is the
    first thing the run does to the file system besides appending log
    lines, whatever happens afterwards: the file then holds the JSON text,
    or what was written of it before an error, or is untouched when it
    could not be opened. *)
Theorem process_writes_debug_json_first (E : env) (x out log_path js err cmd d : string)
    (title : option string) (include_details include_screenshots : bool) :
  run_xcresulttool E x = Ok (Some js, err, cmd) ->
  String.eqb js EmptyString = false ->
  with_json_suffix E out = inr d ->
  exists logs rest,
    fst (process_xcresult_to_html E x out log_path title include_details include_screenshots)
    = (logs ++ write_effects d js (write_file E d js) ++ rest)%list /\
    Forall (fun ef => ef = LogAppend log_path) logs.
Proof.
  intros Hr Hne Hd. unfold process_xcresult_to_html. rewrite Hr. cbv beta iota zeta.
  rewrite Hd. cbv beta iota zeta. rewrite Hne.
  exists (log E log_path ++ log E log_path ++
          (if String.eqb (str_strip err) EmptyString then [] else log E log_path) ++
          log E log_path)%list.
  repeat destr_inner_goal.
  all: eexists; split; [cbn [fst]; rewrite <- ?app_assoc; reflexivity | solve_forall_logs].
Qed.

Lemma process_writes_debug_json_first_witness :
  exists logs rest,
    fst (process_xcresult_to_html (env_with "not json") "run.xcresult" "out.html" "run.log"
           None false false)
    = (logs ++ [FileWrite "out.json" "not json"] ++ rest)%list.
Proof.
  destruct (process_writes_debug_json_first (env_with "not json") "run.xcresult" "out.html"
              "run.log" "not json" "error: bundle not readable"
              (cmd_text (hd [] (candidates (env_with "not json") "/tmp/run.xcresult")))
              "out.json" None false false) as [logs [rest [H _]]].
  - vm_compute. reflexivity.
  - reflexivity.
  - reflexivity.
  - exists logs, rest. exact H.
Defined.

(** ** Rendering *)

Lemma render_items_raise (py_str : json -> string) (hf hs : bool) (dir : string)
    (m : screenshot_index) (items : list detail) (e : exn) :
  render_items py_str hf hs dir m items = Raise e ->
  e = TypeError /\ hs = true /\ exists it, In it items /\ is_str (d_test_id it) = false.
Proof.
  induction items as [| it r IH]; simpl; [discriminate |].
  unfold render_item.
  destruct hs; [| destruct (render_items py_str hf false dir m r) eqn:Er; intros H;
                   [discriminate H | injection H as <-; destruct (IH eq_refl) as [_ [Hf _]];
                    discriminate Hf]].
  destruct (d_test_id it) eqn:Et.
  all: try (intros H; injection H as <-; split; [reflexivity | split; [reflexivity |]];
            exists it; split; [now left | now rewrite Et]).
  destruct (render_items py_str hf true dir m r) eqn:Er; intros H; [discriminate H |].
  injection H as <-. destruct (IH eq_refl) as [He [_ [it' [Hin Hs]]]].
  split; [exact He | split; [reflexivity |]]. exists it'. auto.
Qed.

Lemma render_items_type_error (py_str : json -> string) (hf : bool) (dir : string)
    (m : screenshot_index) (items : list detail) (it : detail) :
  In it items -> is_str (d_test_id it) = false ->
  render_items py_str hf true dir m items = Raise TypeError.
Proof.
  induction items as [| i r IH]; simpl; [intros [] |].
  intros Hin Hs. try unfold render_item.
  destruct (d_test_id i) eqn:Ei; try reflexivity.
  destruct Hin as [<- | Hin]; [rewrite Ei in Hs; discriminate Hs |].
  now rewrite (IH Hin Hs).
Qed.

(** [build_html], given a screenshot map whose keys are all [str] (its
    annotation [Dict[str, List[str]]]): the only exception it raises is
    TypeError, and it raises exactly when there are detail rows, a
    non-empty screenshot directory, a non-empty screenshot map, and some
    row whose test identifier is not a [str]. Maps with keys of other
    types, which [_export_attachments] builds from a manifest with numeric
    identifiers, are not of this type. *)
Theorem build_html_raises_iff (py_str : json -> string) (p f s : Z)
    (source_name title : string) (details : option (list detail))
    (dir : option string) (m : option screenshot_index) :
  (forall e, build_html py_str p f s source_name title details dir m = Raise e ->
             e = TypeError) /\
  (build_html py_str p f s source_name title details dir m = Raise TypeError <->
   exists items d k v r,
     details = Some items /\ dir = Some d /\ d <> EmptyString /\
     m = Some ((k, v) :: r) /\
     exists it, In it items /\ is_str (d_test_id it) = false).
Proof.
  split; [| split].
  - intros e. unfold build_html. destruct details as [[| i0 r] |]; cbv zeta;
      try discriminate.
    destruct (render_items _ _ _ _ _ _) eqn:Er; [discriminate |].
    intros H. injection H as <-. now apply render_items_raise in Er.
  - unfold build_html. destruct details as [[| i0 r] |]; cbv zeta; try discriminate.
    destruct (render_items _ _ _ _ _ _) eqn:Er; [discriminate |]. intros _.
    apply render_items_raise in Er as [_ [Hhs [it [Hin Hs]]]].
    destruct dir as [d |]; [| discriminate Hhs].
    apply andb_prop in Hhs as [Hd Hm].
    destruct m as [[| [k v] r'] |]; try discriminate Hm.
    apply negb_true_iff, String.eqb_neq in Hd.
    exists (i0 :: r), d, k, v, r'. repeat split; auto. exists it. auto.
  - intros [items [d [k [v [r [-> [-> [Hd [-> [it [Hin Hs]]]]]]]]]]].
    unfold build_html. destruct items as [| i0 items]; [destruct Hin |]. cbv zeta.
    rewrite (proj2 (String.eqb_neq _ _) Hd). cbn [negb andb].
    now rewrite (render_items_type_error py_str _ d _ _ it Hin Hs).
Qed.

Lemma build_html_raises_iff_witness :
  build_html py_str_model 0 1 0 "run.xcresult" "XCTest Summary"
    (Some [{| d_name := JStr "testFoo"; d_status := JStr "Failed"; d_suite := JStr "S";
              d_failure := JStr EmptyString; d_test_id := JInt 7 |}])
    (Some "out_screenshots") (Some [("S/testFoo", ["a.png"])]) = Raise TypeError.
Proof.
  apply (proj2 (proj2 (build_html_raises_iff py_str_model 0 1 0 "run.xcresult"
                        "XCTest Summary" _ _ _))).
  eexists _, "out_screenshots", "S/testFoo", ["a.png"], [].
  split; [reflexivity | split; [reflexivity | split; [discriminate | split; [reflexivity |]]]].
  eexists. split; [now left | reflexivity].
Defined.

(** [build_html]: a row whose test identifier is empty gets the screenshots
    of the first key of the map (the empty string is in every key), unless
    the map has a non-empty entry under the empty key itself. *)
Theorem select_screenshots_empty_id (k : string) (v : list string) (r : screenshot_index) :
  match index_get EmptyString ((k, v) :: r) with Some (_ :: _) => False | _ => True end ->
  select_screenshots EmptyString ((k, v) :: r) = v.
Proof.
  unfold select_screenshots. intros H.
  assert (Hk : key_matches EmptyString k = true).
  { unfold key_matches, str_contains. destruct k; reflexivity. }
  destruct (index_get EmptyString ((k, v) :: r)) as [[| i is] |]; try contradiction;
    simpl; rewrite Hk; reflexivity.
Qed.

Lemma select_screenshots_empty_id_witness :
  select_screenshots EmptyString [("A/t1", ["a.png"]); ("B/t2", ["b.png"])] = ["a.png"].
Proof. apply select_screenshots_empty_id. exact I. Defined.

(** ** Counting *)

Lemma has_key_single_two (k a b : string) (x : json) :
  a <> b -> has_key [(k, x)] a && has_key [(k, x)] b = false.
Proof.
  intros Hab. unfold has_key. simpl.
  destruct (String.eqb_spec a k), (String.eqb_spec b k); subst; try reflexivity.
  congruence.
Qed.

Lemma match_node_single (k : string) (x : json) : match_node [(k, x)] = None.
Proof.
  unfold match_node, pattern_summary, pattern_total, pattern_a, pattern_b, pattern_alt,
    direct_pattern.
  rewrite !has_key_single_two by discriminate.
  rewrite andb_orb_distrib_r, !has_key_single_two by discriminate.
  reflexivity.
Qed.

(** [extract_counts]: wrapping a document in a one-key dict (any key) or in a
    one-element list does not change the counts: no pattern can match a
    one-key node, and the walk goes on into the wrapped value. *)
Theorem extract_counts_wrapper (k : string) (x : json) :
  extract_counts (JObj [(k, x)]) = extract_counts x /\
  extract_counts (JArr [x]) = extract_counts x.
Proof.
  unfold extract_counts. split; simpl.
  - rewrite match_node_single. now rewrite app_nil_r.
  - now rewrite app_nil_r.
Qed.

(** ** The screenshot manifest *)

Lemma exported_names_truthy (atts : list json) :
  forallb truthy (exported_names atts) = true.
Proof.
  induction atts as [| a r IH]; simpl; [reflexivity |].
  destruct a as [| | | | | | a']; simpl; try exact IH.
  destruct (truthy (get a' "exportedFileName" JNull)) eqn:Et; simpl; [rewrite Et |]; exact IH.
Qed.

Lemma assoc_set_ok (k : json) (v : list json) (m : by_id_map) :
  key_ok k = true -> names_ok v = true ->
  Forall (fun kv => key_ok (fst kv) = true /\ names_ok (snd kv) = true) m ->
  Forall (fun kv => key_ok (fst kv) = true /\ names_ok (snd kv) = true) (assoc_set k v m).
Proof.
  intros Hk Hv. induction 1 as [| [k' v'] r [Hk' Hv'] Hr IH]; simpl.
  - repeat constructor; assumption.
  - destruct (key_eqb k k'); constructor; auto.
Qed.

Lemma dict_set_ok (k : json) (v : list json) (m m' : by_id_map) :
  truthy k = true -> names_ok v = true -> dict_set k v m = Ok m' ->
  Forall (fun kv => key_ok (fst kv) = true /\ names_ok (snd kv) = true) m ->
  Forall (fun kv => key_ok (fst kv) = true /\ names_ok (snd kv) = true) m'.
Proof.
  unfold dict_set. intros Ht Hv H Hm. destruct (hashable k) eqn:Hh; [| discriminate H].
  injection H as <-. apply assoc_set_ok; auto. unfold key_ok. now rewrite Ht, Hh.
Qed.

Lemma manifest_step_ok (m m' : by_id_map) (e : json) :
  manifest_step m e = Ok m' ->
  Forall (fun kv => key_ok (fst kv) = true /\ names_ok (snd kv) = true) m ->
  Forall (fun kv => key_ok (fst kv) = true /\ names_ok (snd kv) = true) m'.
Proof.
  unfold manifest_step. destruct e as [| | | | | | d]; try (intros H; injection H as <-; auto).
  cbv zeta. intros H Hm.
  destruct (truthy (py_or (get d "testIdentifier" JNull)
                      (py_or (get d "testIdentifierURL" JNull) (JStr EmptyString)))) eqn:Ht;
    simpl in H; [| injection H as <-; exact Hm].
  destruct (py_iter _) as [atts |] eqn:Ei; [| discriminate H].
  pose proof (exported_names_truthy atts) as Hnames.
  destruct (exported_names atts) as [| n ns] eqn:En; [injection H as <-; exact Hm |].
  assert (Hv : names_ok (n :: ns) = true) by exact Hnames.
  destruct (dict_set _ _ m) as [m1 |] eqn:Ed; [| discriminate H].
  pose proof (dict_set_ok _ _ _ _ Ht Hv Ed Hm) as Hm1.
  destruct (truthy (get d "testIdentifierURL" JNull)) eqn:Hu; simpl in H;
    [| injection H as <-; exact Hm1].
  destruct (negb _); [| injection H as <-; exact Hm1].
  exact (dict_set_ok _ _ _ _ Hu Hv H Hm1).
Qed.

Lemma manifest_loop_ok (m m' : by_id_map) (es : list json) :
  manifest_loop m es = Ok m' ->
  Forall (fun kv => key_ok (fst kv) = true /\ names_ok (snd kv) = true) m ->
  Forall (fun kv => key_ok (fst kv) = true /\ names_ok (snd kv) = true) m'.
Proof.
  revert m. induction es as [| e r IH]; simpl; intros m H Hm.
  - injection H as <-. exact Hm.
  - destruct (manifest_step m e) as [m1 |] eqn:Es; [| discriminate H].
    exact (IH _ H (manifest_step_ok _ _ _ Es Hm)).
Qed.

(** [_export_attachments]: in the map built from the manifest, every key is a
    truthy hashable identifier and every value a non-empty list of truthy
    [exportedFileName] values. *)
Theorem manifest_by_id_entries_ok (manifest : json) (m : by_id_map) :
  manifest_by_id manifest = Ok (Some m) ->
  Forall (fun kv => key_ok (fst kv) = true /\ names_ok (snd kv) = true) m.
Proof.
  unfold manifest_by_id. destruct (manifest_entries manifest) as [es |]; [| discriminate].
  destruct (manifest_loop [] es) as [m1 |] eqn:El; [| discriminate].
  pose proof (manifest_loop_ok _ _ _ El (Forall_nil _)) as H.
  destruct m1; intros Hs; [discriminate Hs |]. injection Hs as <-. exact H.
Qed.

Lemma manifest_by_id_entries_ok_witness :
  exists m, manifest_by_id sample_manifest = Ok (Some m) /\
    Forall (fun kv => key_ok (fst kv) = true /\ names_ok (snd kv) = true) m.
Proof.
  eexists. split; [vm_compute; reflexivity |].
  apply (manifest_by_id_entries_ok sample_manifest). vm_compute. reflexivity.
Defined.










(** ** The report path search, the GUI and the command line *)

Lemma string_app_cancel_l (p a b : string) : (p ++ a = p ++ b)%string -> a = b.
Proof.
  induction p as [| c p IH]; cbn [append]; [auto |].
  intros H. injection H as H. exact (IH H).
Qed.

Lemma string_app_cancel_r (a b s : string) : (a ++ s = b ++ s)%string -> a = b.
Proof.
  intros H. apply (f_equal list_ascii_of_string) in H.
  rewrite !list_ascii_of_string_app in H. apply app_inv_tail in H.
  rewrite <- (string_of_list_ascii_of_string a), <- (string_of_list_ascii_of_string b).
  now rewrite H.
Qed.

Lemma str_int_inj (a b : Z) : str_int a = str_int b -> a = b.
Proof.
  intros H. assert (Hp : parse_int (str_int a) = parse_int (str_int b)) by now rewrite H.
  rewrite !parse_int_str_int in Hp. now injection Hp.
Qed.

Lemma candidate_path_inj (F : fs_env) (path : string) (n m : nat) :
  (forall a b, fs_join F (fs_parent F path) a = fs_join F (fs_parent F path) b -> a = b) ->
  candidate_path F path n = candidate_path F path m -> n = m.
Proof.
  intros Hj H. unfold candidate_path in H. cbv zeta in H. apply Hj in H.
  apply string_app_cancel_l in H. cbn [append] in H. injection H as H.
  apply string_app_cancel_r in H. apply str_int_inj in H. lia.
Qed.

Lemma probe_from_some (F : fs_env) (path r : string) (fuel : nat) : forall n,
  probe_from F path n fuel = Some r ->
  exists k, (n <= k)%nat /\ r = candidate_path F path k /\ fs_exists F r = false /\
    forall i, (n <= i < k)%nat -> fs_exists F (candidate_path F path i) = true.
Proof.
  induction fuel as [| fuel IH]; intros n H; cbn [probe_from] in H; [discriminate H |].
  destruct (fs_exists F (candidate_path F path n)) eqn:He.
  - destruct (IH (S n) H) as [k [Hk [Hr [Hf Hall]]]].
    exists k. split; [lia |]. split; [exact Hr |]. split; [exact Hf |].
    intros i Hi. destruct (Nat.eq_dec i n) as [-> | Hne]; [exact He |]. apply Hall. lia.
  - injection H as <-. exists n. split; [lia |]. split; [reflexivity |].
    split; [exact He |]. intros i Hi. lia.
Qed.

Lemma probe_from_none (F : fs_env) (path : string) (fuel : nat) : forall n,
  probe_from F path n fuel = None ->
  forall i, (n <= i < n + fuel)%nat -> fs_exists F (candidate_path F path i) = true.
Proof.
  induction fuel as [| fuel IH]; intros n H i Hi; [lia |].
  cbn [probe_from] in H.
  destruct (fs_exists F (candidate_path F path n)) eqn:He; [| discriminate H].
  destruct (Nat.eq_dec i n) as [-> | Hne]; [exact He |].
  apply (IH (S n) H). lia.
Qed.

Lemma next_available_free (F : fs_env) (path r : string) (fuel : nat) :
  next_available_report_path F path fuel = Some r -> fs_exists F r = false.
Proof.
  unfold next_available_report_path. destruct (fs_exists F path) eqn:He; cbn [negb].
  - intros H. destruct (probe_from_some F path r fuel 1 H) as [k [_ [_ [Hf _]]]]. exact Hf.
  - intros H. injection H as <-. exact He.
Qed.

Lemma NoDup_map_inj {A B : Type} (f : A -> B) (l : list A) :
  (forall x y, f x = f y -> x = y) -> NoDup l -> NoDup (map f l).
Proof.
  intros Hf Hl. induction Hl as [| x l Hx Hl IH]; cbn [map]; constructor; [| exact IH].
  intros Hin. apply in_map_iff in Hin as [y [Hy Hin]]. apply Hf in Hy. subst. contradiction.
Qed.

(** [_next_available_report_path]: the path it returns does not exist. It
    is the given path when that is free; otherwise the given path exists
    and the result is [parent/stem_n.suffix] for the least [n >= 1] that
    is free: every [stem_k.suffix] with [1 <= k < n] exists. *)
Theorem next_available_least_free (F : fs_env) (path r : string) (fuel : nat) :
  next_available_report_path F path fuel = Some r ->
  fs_exists F r = false /\
  ((fs_exists F path = false /\ r = path) \/
   (fs_exists F path = true /\
    exists n, (1 <= n)%nat /\ r = candidate_path F path n /\
      forall k, (1 <= k < n)%nat -> fs_exists F (candidate_path F path k) = true)).
Proof.
  intros H. split; [exact (next_available_free F path r fuel H) |].
  unfold next_available_report_path in H.
  destruct (fs_exists F path) eqn:He; cbn [negb] in H.
  - right. split; [reflexivity |].
    destruct (probe_from_some F path r fuel 1 H) as [k [Hk [Hr [_ Hall]]]].
    exists k. auto.
  - left. injection H as <-. auto.
Qed.

Lemma next_available_least_free_witness :
  next_available_report_path sample_fs "out/report.html" 5 = Some "out/report_2.html" /\
  fs_exists sample_fs "out/report_2.html" = false.
Proof.
  assert (H : next_available_report_path sample_fs "out/report.html" 5
              = Some "out/report_2.html") by (vm_compute; reflexivity).
  split; [exact H |].
  exact (proj1 (next_available_least_free sample_fs "out/report.html" "out/report_2.html" 5 H)).
Defined.

(** [_next_available_report_path] terminates: when the existing files are
    among a finite list [L] and distinct names give distinct paths in the
    parent directory, the search stops within [length L + 1] probes. *)
Theorem next_available_terminates (F : fs_env) (path : string) (L : list string) :
  (forall p, fs_exists F p = true -> In p L) ->
  (forall a b, fs_join F (fs_parent F path) a = fs_join F (fs_parent F path) b -> a = b) ->
  exists r, next_available_report_path F path (S (length L)) = Some r.
Proof.
  intros HL Hj. unfold next_available_report_path.
  destruct (fs_exists F path); cbn [negb]; [| eauto].
  destruct (probe_from F path 1 (S (length L))) as [r |] eqn:Hp; [eauto | exfalso].
  pose proof (probe_from_none F path (S (length L)) 1 Hp) as Hall.
  assert (Hnd : NoDup (map (candidate_path F path) (seq 1 (S (length L))))).
  { apply NoDup_map_inj; [| apply seq_NoDup].
    intros a b Hab. exact (candidate_path_inj F path a b Hj Hab). }
  assert (Hinc : incl (map (candidate_path F path) (seq 1 (S (length L)))) L).
  { intros p Hin. apply in_map_iff in Hin as [i [<- Hi]]. apply in_seq in Hi.
    apply HL, Hall. lia. }
  pose proof (NoDup_incl_length Hnd Hinc) as Hlen.
  rewrite length_map, length_seq in Hlen. lia.
Qed.

Lemma next_available_terminates_witness :
  exists r, next_available_report_path sample_fs "out/report.html"
              (S (length sample_existing)) = Some r.
Proof.
  apply (next_available_terminates sample_fs "out/report.html" sample_existing).
  - intros p H. cbn [fs_exists sample_fs] in H. apply existsb_exists in H as [x [Hx Hq]].
    apply String.eqb_eq in Hq. subst x. exact Hx.
  - intros a b H. cbn in H. injection H as H. exact H.
Defined.





(** [run_cli]: when WeasyPrint cannot be imported, the run ends as if no
    PDF had been asked for, but for at most one more line in the log: the
    same files written in the same order and the same exit code. *)
Theorem run_cli_missing_weasyprint (E : env) (xcresult_path out_html_path : string)
    (log_path : option string) (default_log_path : string)
    (pdf_output_path report_title : option string)
    (include_details include_screenshots : bool) (exc : string) (engine : pdf_engine) :
  exists extra,
    run_cli E xcresult_path out_html_path log_path default_log_path pdf_output_path
      report_title include_details include_screenshots (WeasyMissing exc) =
    ((fst (run_cli E xcresult_path out_html_path log_path default_log_path None
             report_title include_details include_screenshots engine) ++ extra)%list,
     snd (run_cli E xcresult_path out_html_path log_path default_log_path None
            report_title include_details include_screenshots engine)) /\
    Forall (fun ef => exists l, ef = LogAppend l) extra /\
    (List.length extra <= 1)%nat.
Proof.
  unfold run_cli.
  set (lp := match log_path with
             | Some l => if String.eqb l EmptyString then default_log_path else l
             | None => default_log_path
             end).
  destruct (process_xcresult_to_html E xcresult_path out_html_path lp report_title
              include_details include_screenshots) as [w [c | e]]; cbv beta iota zeta.
  - destruct pdf_output_path as [pdf |];
      [destruct (String.eqb pdf EmptyString) |].
    + exists []. rewrite app_nil_r. repeat split; [constructor | simpl; lia].
    + exists (log E lp). split; [reflexivity |]. split.
      * eapply Forall_impl; [| apply Forall_log]. intros ef Hef. eexists. exact Hef.
      * unfold log. destruct (log_ok E lp); simpl; lia.
    + exists []. rewrite app_nil_r. repeat split; [constructor | simpl; lia].
  - exists []. rewrite app_nil_r. repeat split; [constructor | simpl; lia].
Qed.

(** ** The web server *)

Lemma path_eqb_refl (p : path) : path_eqb p p = true.
Proof. unfold path_eqb. destruct (list_eq_dec string_dec p p); congruence. Qed.

Lemma path_eqb_true (a b : path) : path_eqb a b = true -> a = b.
Proof. unfold path_eqb. destruct (list_eq_dec string_dec a b); congruence. Qed.

Lemma cleanup_dir_under (U : path) (pre : list string) (j : string) :
  cleanup_dir U (pre ++ j :: U)%list = j :: U.
Proof.
  induction pre as [| x pre IH].
  - cbn [app cleanup_dir]. now rewrite path_eqb_refl.
  - cbn [app cleanup_dir]. destruct (path_eqb (pre ++ j :: U)%list U) eqn:He; [| exact IH].
    apply path_eqb_true in He. exfalso.
    apply (f_equal (@length string)) in He. rewrite length_app in He. cbn [length] in He. lia.
Qed.

Lemma cleanup_dir_not_under (U p : path) :
  (forall pre j, p <> (pre ++ j :: U)%list) -> cleanup_dir U p = [].
Proof.
  induction p as [| x p IH]; intros H; [reflexivity |].
  cbn [cleanup_dir]. destruct (path_eqb p U) eqn:He.
  - apply path_eqb_true in He. subst p. exfalso. exact (H [] x eq_refl).
  - apply IH. intros pre j Heq. apply (H (x :: pre) j). now rewrite Heq.
Qed.

(** [upload]: the directory the upload route removes after a zip upload is
    the top-level entry [UPLOAD_DIR/job] that holds the unpacked bundle;
    when the bundle is not below [UPLOAD_DIR] the walk goes all the way up
    to the file system root. *)
Theorem cleanup_dir_job_or_root (U p : path) :
  (exists pre j, p = (pre ++ j :: U)%list /\ cleanup_dir U p = j :: U) \/
  ((forall pre j, p <> (pre ++ j :: U)%list) /\ cleanup_dir U p = []).
Proof.
  induction p as [| x p IH].
  - right. split; [| reflexivity]. intros pre j H. destruct pre; discriminate H.
  - destruct (list_eq_dec string_dec p U) as [-> | Hne].
    + left. exists [], x. split; [reflexivity |]. exact (cleanup_dir_under U [] x).
    + destruct IH as [[pre [j [-> _]]] | [Hn _]].
      * left. exists (x :: pre), j. split; [reflexivity |].
        exact (cleanup_dir_under U (x :: pre) j).
      * right.
        assert (Hn' : forall pre j, x :: p <> (pre ++ j :: U)%list).
        { intros [| y pre] j Heq; injection Heq as _ Heq;
            [contradiction | exact (Hn pre j Heq)]. }
        split; [exact Hn' | exact (cleanup_dir_not_under U (x :: p) Hn')].
Qed.

(** [upload]: a zip upload (no local path given) whose bundle is unpacked
    below [UPLOAD_DIR/job] is processed from there, and the directory
    removed afterwards is that job directory. *)
Theorem upload_zip_cleans_job_dir (S : server_env) (U : path)
    (form : list (string * string)) (fn : string) (pre : list string) (j : string) :
  str_strip (match form_get "local_path" form with Some v => v | None => EmptyString end)
  = EmptyString ->
  fn <> EmptyString ->
  unpack_upload S = inr (pre ++ j :: U)%list ->
  exists title include_details,
    upload S U form (Some fn)
    = Generate (pre ++ j :: U)%list title include_details (Some (j :: U)).
Proof.
  intros Hl Hfn Hu. unfold upload. cbv zeta. rewrite Hl.
  assert (Hf : String.eqb fn EmptyString = false) by (apply String.eqb_neq; exact Hfn).
  rewrite Hf. cbn [String.eqb negb andb]. rewrite Hu, cleanup_dir_under. eauto.
Qed.

Lemma upload_zip_cleans_job_dir_witness :
  exists title include_details,
    upload (sample_server (inr ["run.xcresult"; "extracted"; "job1"; "uploads"]))
      ["uploads"] [("title", "Nightly")] (Some "run.zip")
    = Generate ["run.xcresult"; "extracted"; "job1"; "uploads"] title include_details
        (Some ["job1"; "uploads"]).
Proof.
  exact (upload_zip_cleans_job_dir
           (sample_server (inr ["run.xcresult"; "extracted"; "job1"; "uploads"]))
           ["uploads"] [("title", "Nightly")] "run.zip" ["run.xcresult"; "extracted"] "job1"
           eq_refl ltac:(discriminate) eq_refl).
Defined.

(** [upload]: the report title is never empty: it is the stripped [title]
    field, or [XCTest Summary] when that field is missing or blank; the
    details are included exactly when the [include_details] field is [on]. *)
Theorem upload_title_and_details (S : server_env) (U : path)
    (form : list (string * string)) (filename : option string)
    (x : path) (title : string) (include_details : bool) (cleanup : option path) :
  upload S U form filename = Generate x title include_details cleanup ->
  title <> EmptyString /\
  (let raw := str_strip (match form_get "title" form with Some t => t | None => EmptyString end) in
   (raw = EmptyString /\ title = "XCTest Summary") \/ (raw <> EmptyString /\ title = raw)) /\
  (include_details = true <-> form_get "include_details" form = Some "on").
Proof.
  intros H. unfold upload in H. cbv zeta in H.
  repeat (destr_in H; try discriminate H).
  all: injection H as _ <- <- _.
  all: repeat match goal with
         | Hb : String.eqb _ _ = true |- _ => apply String.eqb_eq in Hb
         | Hb : String.eqb _ _ = false |- _ => apply String.eqb_neq in Hb
         end.
  all: cbv zeta; subst.
  all: repeat match goal with Hm : form_get _ _ = _ |- _ => rewrite Hm end.
  all: repeat split; try discriminate; try tauto.
  all: try (intros Hc; injection Hc; contradiction).
  all: try (left; split; [assumption | reflexivity]).
  all: try (right; split; [assumption | reflexivity]).
  all: try (intros Hc; apply String.eqb_eq in Hc; now subst).
  all: intros Hc; injection Hc as ->; apply String.eqb_refl.
Qed.

Lemma upload_title_and_details_witness :
  upload (sample_server (inl (ValueError "unused"))) ["uploads"]
    [("title", "   "); ("include_details", "on"); ("local_path", " /tmp/run.xcresult ")] None
  = Generate ["/tmp/run.xcresult"] "XCTest Summary" true None /\
  "XCTest Summary" <> EmptyString.
Proof.
  assert (H : upload (sample_server (inl (ValueError "unused"))) ["uploads"]
                [("title", "   "); ("include_details", "on");
                 ("local_path", " /tmp/run.xcresult ")] None
              = Generate ["/tmp/run.xcresult"] "XCTest Summary" true None)
    by (vm_compute; reflexivity).
  split; [exact H |].
  exact (proj1 (upload_title_and_details _ _ _ _ _ _ _ _ H)).
Defined.

(** [upload]: a non-blank local path takes precedence over an uploaded
    file: the outcome does not depend on the file part, nor on what
    unpacking it would give. *)
Theorem upload_prefers_local_path (S : server_env) (U : path)
    (form : list (string * string)) (filename filename' : option string)
    (unpacked : upload_error + path) :
  str_strip (match form_get "local_path" form with Some v => v | None => EmptyString end)
  <> EmptyString ->
  upload S U form filename =
  upload {| resolve := resolve S; path_str := path_str S; exists_path := exists_path S;
            unpack_upload := unpacked; type_error_text := type_error_text S |}
    U form filename'.
Proof.
  intros Hl. apply String.eqb_neq in Hl. unfold upload. cbv zeta.
  rewrite Hl. cbn [andb negb]. unfold resolve_local_path. reflexivity.
Qed.

Lemma upload_prefers_local_path_witness :
  upload (sample_server (inr ["x.xcresult"; "job1"; "uploads"])) ["uploads"]
    [("local_path", "/tmp/run.xcresult")] (Some "run.zip")
  = upload (sample_server (inl (OtherError "bad zip"))) ["uploads"]
    [("local_path", "/tmp/run.xcresult")] None.
Proof.
  exact (upload_prefers_local_path (sample_server (inr ["x.xcresult"; "job1"; "uploads"]))
           ["uploads"] [("local_path", "/tmp/run.xcresult")] (Some "run.zip") None
           (inl (OtherError "bad zip")) ltac:(vm_compute; discriminate)).
Defined.

(** [upload] with [_resolve_local_path]: a report is generated from a local
    path only when that path exists and its suffix is [.xcresult], and
    nothing is removed afterwards. *)
Theorem upload_local_path_checked (S : server_env) (U : path)
    (form : list (string * string)) (filename : option string)
    (x : path) (title : string) (include_details : bool) (cleanup : option path) :
  str_strip (match form_get "local_path" form with Some v => v | None => EmptyString end)
  <> EmptyString ->
  upload S U form filename = Generate x title include_details cleanup ->
  exists_path S x = true /\ has_xcresult_suffix (name_of x) = true /\ cleanup = None.
Proof.
  intros Hl H. apply String.eqb_neq in Hl. unfold upload in H. cbv zeta in H.
  rewrite Hl in H. cbn [andb negb] in H.
  destruct (resolve_local_path S _) as [msg | p] eqn:Hr; [discriminate H |].
  injection H as <- _ _ <-. unfold resolve_local_path in Hr.
  destruct (exists_path S _) eqn:He; cbn [negb] in Hr; [| discriminate Hr].
  destruct (has_xcresult_suffix _) eqn:Hs; cbn [negb] in Hr; [| discriminate Hr].
  injection Hr as <-. auto.
Qed.

Lemma upload_local_path_checked_witness :
  exists_path (sample_server (inl (ValueError "unused"))) ["/tmp/run.xcresult"] = true /\
  has_xcresult_suffix (name_of ["/tmp/run.xcresult"]) = true.
Proof.
  destruct (upload_local_path_checked (sample_server (inl (ValueError "unused"))) ["uploads"]
              [("local_path", " /tmp/run.xcresult ")] None ["/tmp/run.xcresult"]
              "XCTest Summary" false None) as [H1 [H2 _]].
  - vm_compute. discriminate.
  - vm_compute. reflexivity.
  - split; assumption.
Defined.


